(** * texteripy: the Texterify API client ([texteripy/client.py])

    A shallow embedding of the [Texterify] class: the request dispatcher
    [_make_request], the four verb helpers and the operations built on
    them, together with the properties its specification states.

    Python values are an inductive type, Python [str] is a Rocq [string]
    holding the UTF-8 bytes of the text, file contents are [list byte].
    The logger, the network and the file system are the components of an
    explicit [world] that every coroutine threads through. *)

From Stdlib Require Import List String Ascii ZArith NArith Bool Lia.
From Stdlib.Strings Require Import Byte.
From Stdlib Require Import DecimalString.
Import ListNotations.
Open Scope string_scope.
Open Scope Z_scope.
Set Warnings "-register-all".

(** ** Python values *)

Module Py.

(** The values that travel through the client: request payloads and
    decoded JSON bodies.  A [dict] keeps insertion order and has [str]
    keys.  Floats are left out: the client builds none, and a body that
    holds one is outside the model. *)
Inductive pyval : Type :=
| PNone
| PBool (b : bool)
| PInt (z : Z)
| PStr (s : string)
| PList (l : list pyval)
| PDict (d : list (string * pyval)).

(** [bool(v)]: the truth value Python's [if], [and] and [not] test. *)
Definition truthy (v : pyval) : bool :=
  match v with
  | PNone => false
  | PBool b => b
  | PInt z => negb (z =? 0)
  | PStr s => negb (s =? "")%string
  | PList l => match l with [] => false | _ => true end
  | PDict d => match d with [] => false | _ => true end
  end.

(** [type(v).__name__] *)
Definition type_name (v : pyval) : string :=
  match v with
  | PNone => "NoneType"
  | PBool _ => "bool"
  | PInt _ => "int"
  | PStr _ => "str"
  | PList _ => "list"
  | PDict _ => "dict"
  end.

(** Lookup in a dict literal; a later binding of a key wins, as in Python
    (no dict built by the client or by a JSON decoder repeats a key). *)
Fixpoint lookup (k : string) (d : list (string * pyval)) : option pyval :=
  match d with
  | [] => None
  | (k', v) :: d' =>
      match lookup k d' with
      | Some w => Some w
      | None => if (k' =? k)%string then Some v else None
      end
  end.

(** [d.get(k)] on a dict: the value, or [None] when the key is absent. *)
Definition dict_get (d : list (string * pyval)) (k : string) : pyval :=
  match lookup k d with Some v => v | None => PNone end.

(** [a == b] where [b] is a [str] literal. *)
Definition eq_str (a : pyval) (s : string) : bool :=
  match a with PStr t => (t =? s)%string | _ => false end.

(** *** Text helpers *)

Fixpoint join (sep : string) (l : list string) : string :=
  match l with
  | [] => ""
  | [x] => x
  | x :: rest => x ++ sep ++ join sep rest
  end.

Definition hex_digit (upper : bool) (n : N) : ascii :=
  if (n <? 10)%N then ascii_of_N (48 + n)
  else ascii_of_N ((if upper then 55 else 87) + n).

Definition hex2 (upper : bool) (n : N) : string :=
  String (hex_digit upper (n / 16)) (String (hex_digit upper (n mod 16)) "").

Definition hex4 (n : N) : string :=
  hex2 false (n / 256) ++ hex2 false (n mod 256).

(** [str(z)] for an [int]. *)
Definition str_of_int (z : Z) : string :=
  NilZero.string_of_int (Z.to_int z).

(** [s.lower()] on ASCII letters (the client applies it to [str(bool)]). *)
Definition lower_ascii (c : ascii) : ascii :=
  let n := N_of_ascii c in
  if ((65 <=? n) && (n <=? 90))%N then ascii_of_N (n + 32) else c.

Fixpoint lower (s : string) : string :=
  match s with
  | EmptyString => EmptyString
  | String c s' => String (lower_ascii c) (lower s')
  end.

(** The double quote character. *)
Definition dquote : ascii := ascii_of_N 34.

Fixpoint contains_char (c : ascii) (s : string) : bool :=
  match s with
  | EmptyString => false
  | String c' s' => (c' =? c)%char || contains_char c s'
  end.

(** *** [repr] and [str] *)

(** [repr] of a [str]: single quotes unless the text has a single quote
    and no double quote; backslash, the quote, tab, newline and carriage
    return are escaped, other control characters are written [\xhh].
    Bytes above 0x7f (the UTF-8 encoding of non-ASCII text) are kept,
    which is what CPython does for every printable character. *)
Definition repr_char (q : ascii) (c : ascii) : string :=
  let n := N_of_ascii c in
  if (c =? q)%char || (c =? "\")%char then String "\" (String c "")
  else if (n =? 9)%N then "\t"
  else if (n =? 10)%N then "\n"
  else if (n =? 13)%N then "\r"
  else if ((n <? 32) || (n =? 127))%N then "\x" ++ hex2 false n
  else String c "".

Fixpoint repr_body (q : ascii) (s : string) : string :=
  match s with
  | EmptyString => EmptyString
  | String c s' => repr_char q c ++ repr_body q s'
  end.

Definition repr_str (s : string) : string :=
  let q := if contains_char "'" s && negb (contains_char dquote s)
           then dquote else "'"%char in
  String q (repr_body q s ++ String q "").

Fixpoint repr (v : pyval) : string :=
  match v with
  | PNone => "None"
  | PBool true => "True"
  | PBool false => "False"
  | PInt z => str_of_int z
  | PStr s => repr_str s
  | PList l => "[" ++ join ", " (map repr l) ++ "]"
  | PDict d =>
      "{" ++ join ", " (map (fun kv => repr_str (fst kv) ++ ": " ++ repr (snd kv)) d)
          ++ "}"
  end.

(** [str(v)] *)
Definition str (v : pyval) : string :=
  match v with
  | PStr s => s
  | _ => repr v
  end.

End Py.

(** ** The library functions the client calls *)

(** [urllib.parse]: [quote_plus] and [urlencode] with their defaults. *)
Module Urllib.
Import Py.

(** The characters [quote] never escapes: letters, digits and [_.-~]. *)
Definition always_safe (c : ascii) : bool :=
  let n := N_of_ascii c in
  (((65 <=? n) && (n <=? 90)) || ((97 <=? n) && (n <=? 122))
   || ((48 <=? n) && (n <=? 57)))%N
  || contains_char c "_.-~".

Definition quote_plus_char (c : ascii) : string :=
  if always_safe c then String c ""
  else if (c =? " ")%char then "+"
  else "%" ++ hex2 true (N_of_ascii c).

Fixpoint quote_plus (s : string) : string :=
  match s with
  | EmptyString => EmptyString
  | String c s' => quote_plus_char c ++ quote_plus s'
  end.

(** One [k=v] item: [quote_plus(k) + '=' + quote_plus(str(v))]. *)
Definition encode_pair (kv : string * pyval) : string :=
  quote_plus (fst kv) ++ "=" ++ quote_plus (str (snd kv)).

(** [urlencode(query)] on a sequence of pairs. *)
Definition urlencode (query : list (string * pyval)) : string :=
  join "&" (map encode_pair query).

End Urllib.

(** [json.dumps] with its defaults ([ensure_ascii=True], separators
    [", "] and [": "]). *)
Module Json.
Import Py.

(** The code points of a text, from its UTF-8 bytes. *)
Fixpoint code_points (s : string) : list N :=
  match s with
  | EmptyString => []
  | String a s1 =>
      let x := N_of_ascii a in
      let cont c := (N_of_ascii c mod 64)%N in
      if (x <? 192)%N then x :: code_points s1
      else
        match s1 with
        | EmptyString => [x]
        | String b s2 =>
            if (x <? 224)%N
            then ((x mod 32) * 64 + cont b)%N :: code_points s2
            else
              match s2 with
              | EmptyString => [x]
              | String c s3 =>
                  if (x <? 240)%N
                  then ((x mod 16) * 4096 + cont b * 64 + cont c)%N
                         :: code_points s3
                  else
                    match s3 with
                    | EmptyString => [x]
                    | String d s4 =>
                        ((x mod 8) * 262144 + cont b * 4096
                         + cont c * 64 + cont d)%N :: code_points s4
                    end
              end
        end
  end.

(** One code point inside a JSON string literal. *)
Definition escape_code_point (n : N) : string :=
  if (n =? 34)%N then String "\" (String dquote "")
  else if (n =? 92)%N then "\\"
  else if (n =? 10)%N then "\n"
  else if (n =? 13)%N then "\r"
  else if (n =? 9)%N then "\t"
  else if (n =? 8)%N then "\b"
  else if (n =? 12)%N then "\f"
  else if ((32 <=? n) && (n <=? 126))%N then String (ascii_of_N n) ""
  else if (n <? 65536)%N then "\u" ++ hex4 n
  else
    let v := (n - 65536)%N in
    "\u" ++ hex4 (55296 + v / 1024) ++ "\u" ++ hex4 (56320 + v mod 1024).

Definition dumps_str (s : string) : string :=
  String dquote (concat "" (map escape_code_point (code_points s)))
    ++ String dquote "".

Fixpoint dumps (v : pyval) : string :=
  match v with
  | PNone => "null"
  | PBool true => "true"
  | PBool false => "false"
  | PInt z => str_of_int z
  | PStr s => dumps_str s
  | PList l => "[" ++ join ", " (map dumps l) ++ "]"
  | PDict d =>
      "{" ++ join ", " (map (fun kv => dumps_str (fst kv) ++ ": " ++ dumps (snd kv)) d)
          ++ "}"
  end.

End Json.

(** [base64.b64encode(data).decode()]: the standard alphabet, [=] padding. *)
Module Base64.

Definition alphabet : string :=
  "ABCDEFGHIJKLMNOPQRSTUVWXYZabcdefghijklmnopqrstuvwxyz0123456789+/".

Definition sextet (n : N) : ascii :=
  match String.get (N.to_nat (n mod 64)) alphabet with
  | Some c => c
  | None => "="%char
  end.

Fixpoint b64encode (data : list byte) : string :=
  match data with
  | [] => ""
  | [a] =>
      let n := (Byte.to_N a * 65536)%N in
      String (sextet (n / 262144)) (String (sextet (n / 4096)) "==")
  | [a; b] =>
      let n := (Byte.to_N a * 65536 + Byte.to_N b * 256)%N in
      String (sextet (n / 262144)) (String (sextet (n / 4096))
        (String (sextet (n / 64)) "="))
  | a :: b :: c :: rest =>
      let n := (Byte.to_N a * 65536 + Byte.to_N b * 256 + Byte.to_N c)%N in
      String (sextet (n / 262144)) (String (sextet (n / 4096))
        (String (sextet (n / 64)) (String (sextet n) (b64encode rest))))
  end.

End Base64.

(** ** Exceptions, responses and the world *)

Import Py.

(** The exceptions a call can end with.  [Exception] is the builtin class
    itself, the one the dispatcher raises; the next three are raised by
    the interpreter when a value is used as a dict and is not one;
    [LibraryError] stands for any other subclass of [Exception] (raised
    by aiohttp, by the JSON decoder or by [open]); [BaseError] for a
    [BaseException] outside [Exception], such as a cancellation. *)
Inductive exn : Type :=
| Exception (msg : string)
| KeyError (key : string)
| TypeError (ty : string)
| AttributeError (ty attr : string)
| LibraryError (cls msg : string)
| BaseError (cls : string).

(** The class an [except] clause matches on. *)
Definition exn_class (e : exn) : string :=
  match e with
  | Exception _ => "Exception"
  | KeyError _ => "KeyError"
  | TypeError _ => "TypeError"
  | AttributeError _ _ => "AttributeError"
  | LibraryError cls _ => cls
  | BaseError cls => cls
  end.

(** Whether [except Exception] catches it. *)
Definition is_Exception (e : exn) : bool :=
  match e with
  | BaseError _ => false
  | _ => true
  end.

Inductive outcome (A : Type) : Type :=
| Return (a : A)
| Raise (e : exn).
Arguments Return {A} a.
Arguments Raise {A} e.

(** An aiohttp response: its status and what [await response.json()]
    gives (the decoded body, or the error of a body that is not JSON or
    does not carry a JSON content type). *)
Record response : Type := mkResponse {
  status : Z;
  json : outcome pyval
}.

(** The local variable [params] of the dispatcher: the caller's [None]
    or dict, or the list of pairs the GET branch rebinds it to. *)
Inductive params_value : Type :=
| ParamsNone
| ParamsDict (d : list (string * pyval))
| ParamsPairs (l : list (string * pyval)).

(** The entry of [options] next to the headers: [data] or [params]. *)
Inductive payload : Type :=
| Data (body : string)
| Params (p : params_value).

(** The arguments of one [session.request(method, full_url, **options)]. *)
Record request : Type := mkRequest {
  req_method : string;
  req_url : string;
  req_headers : list (string * string);
  req_payload : payload
}.

(** One [logger.error(msg, *args)] call. *)
Record log_record : Type := mkLog {
  log_msg : string;
  log_args : list exn
}.

(** What a coroutine of the client can observe and change: the records
    sent to the logger, the requests handed to aiohttp so far, the remote
    side (its answer to a request, given the earlier ones), and the files
    that [open(path, "rb").read()] can read. *)
Record world : Type := mkWorld {
  logged : list log_record;
  requested : list request;
  network : list request -> request -> outcome response;
  files : string -> outcome (list byte)
}.

(** What an operation hands back: a decoded JSON value or the response
    object itself. *)
Inductive pyobj : Type :=
| Json (v : pyval)
| Handle (r : response).

(** ** The monad of coroutines *)

Definition M (A : Type) : Type := world -> outcome A * world.

Definition ret {A} (a : A) : M A := fun w => (Return a, w).

Definition raise {A} (e : exn) : M A := fun w => (Raise e, w).

Definition bind {A B} (m : M A) (k : A -> M B) : M B :=
  fun w =>
    match m w with
    | (Return a, w') => k a w'
    | (Raise e, w') => (Raise e, w')
    end.

Notation "x <- m ;; k" := (bind m (fun x => k))
  (at level 61, m at next level, right associativity).
Notation "m ;;; k" := (bind m (fun _ => k))
  (at level 61, right associativity).

(** [try: body / except Exception as error: handler error] *)
Definition try_except {A} (body : M A) (handler : exn -> M A) : M A :=
  fun w =>
    match body w with
    | (Return a, w') => (Return a, w')
    | (Raise e, w') => if is_Exception e then handler e w' else (Raise e, w')
    end.

(** An expression that may raise and touches nothing. *)
Definition lift {A} (o : outcome A) : M A := fun w => (o, w).

Definition log_append (l : log_record) (w : world) : world :=
  mkWorld (logged w ++ [l]) (requested w) (network w) (files w).

Definition request_append (r : request) (w : world) : world :=
  mkWorld (logged w) (requested w ++ [r]) (network w) (files w).

Definition logger_error (msg : string) (args : list exn) : M unit :=
  fun w => (Return tt, log_append (mkLog msg args) w).

(** [async with session.request(...) as response]: the call is recorded
    and the remote side decides whether it raises or answers. *)
Definition session_request (r : request) : M response :=
  fun w => (network w (requested w) r, request_append r w).

(** [with open(path, "rb") as file: file.read()] *)
Definition read_binary (path : string) : M (list byte) :=
  fun w => (files w path, w).

(** [o.get(k)] *)
Definition py_get (o : pyobj) (k : string) : outcome pyval :=
  match o with
  | Json (PDict d) => Return (dict_get d k)
  | Json v => Raise (AttributeError (type_name v) "get")
  | Handle _ => Raise (AttributeError "ClientResponse" "get")
  end.

(** [v[k]] with a [str] key. *)
Definition getitem (v : pyval) (k : string) : outcome pyval :=
  match v with
  | PDict d =>
      match lookup k d with
      | Some x => Return x
      | None => Raise (KeyError k)
      end
  | _ => Raise (TypeError (type_name v))
  end.

Definition obj_getitem (o : pyobj) (k : string) : outcome pyval :=
  match o with
  | Json v => getitem v k
  | Handle _ => Raise (TypeError "ClientResponse")
  end.

Definition newline : string := String (ascii_of_N 10) "".

(** ** The client *)

Module Client.

Record Texterify : Type := mkTexterify {
  auth_email : string;
  auth_secret : string;
  request_headers : list (string * string);
  api_version : string;
  api_base_url : string
}.

(** [Texterify.__init__] *)
Definition __init__ (auth_email auth_secret : string) : Texterify :=
  let request_headers :=
    [("Accept", "application/json"); ("Content-Type", "application/json")] in
  let api_base_url := "https://app.texterify.com/api" in
  let api_version := "v1" in
  mkTexterify auth_email auth_secret
    (request_headers ++ [("Auth-Email", auth_email); ("Auth-Secret", auth_secret)])
    api_version
    (api_base_url ++ "/" ++ api_version ++ "/").

(** The argument [params: Optional[Dict[str, Any]]] as the value first
    bound to the local variable. *)
Definition params_of (params : option (list (string * pyval))) : params_value :=
  match params with
  | None => ParamsNone
  | Some d => ParamsDict d
  end.

(** [bool(params)] *)
Definition params_truthy (p : params_value) : bool :=
  match p with
  | ParamsNone => false
  | ParamsDict d => match d with [] => false | _ => true end
  | ParamsPairs l => match l with [] => false | _ => true end
  end.

(** [params.items()] *)
Definition items (p : params_value) : list (string * pyval) :=
  match p with
  | ParamsNone => []
  | ParamsDict d => d
  | ParamsPairs l => l
  end.

(** [str(v).lower() if isinstance(v, bool) else v] *)
Definition flatten_value (v : pyval) : pyval :=
  match v with
  | PBool _ => PStr (lower (str v))
  | _ => v
  end.

(** [[(k, ...) for k, v in params.items()]] *)
Definition flatten (p : params_value) : list (string * pyval) :=
  map (fun kv => (fst kv, flatten_value (snd kv))) (items p).

(** [json.dumps(params)] on the local variable.  Every value of [pyval]
    is one [json.dumps] serialises; a parameter it rejects with a
    [TypeError] (a set, an arbitrary object) is not a [pyval], so the
    failure of the encoding, which comes before any request is made, is
    outside the model. *)
Definition dumps_params (p : params_value) : string :=
  match p with
  | ParamsNone => Json.dumps PNone
  | ParamsDict d => Json.dumps (PDict d)
  | ParamsPairs l =>
      Json.dumps (PList (map (fun kv => PList [PStr (fst kv); snd kv]) l))
  end.

Definition not_found_message : string :=
  "The resource could not be found. Maybe your auth credentials are wrong or you"
  ++ " don't have the permission to access this resource.".

Definition invalid_status_message (st : Z) : string :=
  "Invalid response status received: " ++ str (PInt st).

(** [Texterify._make_request] *)
Definition _make_request (self : Texterify) (url method : string)
    (params : option (list (string * pyval))) (is_file_download : bool)
  : M pyobj :=
  let full_url := api_base_url self ++ url in
  try_except
    (let params := params_of params in
     let '(params, full_url) :=
       if (method =? "GET")%string && params_truthy params
       then
         let params := flatten params in
         (ParamsPairs params, full_url ++ "?" ++ Urllib.urlencode params)
       else (params, full_url) in
     let options :=
       if negb (method =? "GET")%string
       then Data (dumps_params params)
       else Params params in
     response <- session_request
                   (mkRequest method full_url (request_headers self) options) ;;
     if negb (status response =? 200) && negb (status response =? 400)
     then
       (if status response =? 404
        then logger_error not_found_message []
        else logger_error (invalid_status_message (status response)) []) ;;;
       raise (Exception (invalid_status_message (status response) ++ newline))
     else
       if negb is_file_download
       then body <- lift (json response) ;; ret (Json body)
       else ret (Handle response))
    (fun error => logger_error "Error:" [error] ;;; raise error).

(** [Texterify._get_request]; its defaults are [query_params=None] and
    [is_file_download=False], which the callers below pass explicitly. *)
Definition _get_request (self : Texterify) (url : string)
    (query_params : option (list (string * pyval))) (is_file_download : bool)
  : M pyobj :=
  _make_request self url "GET" query_params is_file_download.

(** [Texterify._post_request] *)
Definition _post_request (self : Texterify) (url : string)
    (body : option (list (string * pyval))) : M pyobj :=
  _make_request self url "POST" body false.

(** [Texterify._put_request] *)
Definition _put_request (self : Texterify) (url : string)
    (body : option (list (string * pyval))) : M pyobj :=
  _make_request self url "PUT" body false.

(** [Texterify._delete_request] *)
Definition _delete_request (self : Texterify) (url : string)
    (body : option (list (string * pyval))) : M pyobj :=
  _make_request self url "DELETE" body false.

(** An argument with a default: [None] when the caller leaves it out. *)
Definition or_default {A} (default : A) (arg : option A) : A :=
  match arg with
  | Some a => a
  | None => default
  end.

(** [Texterify.get_keys]; the defaults are [page=1], [per_page=10] and
    [False] for the four flags. *)
Definition get_keys (self : Texterify) (project_id : string)
    (page per_page : option Z)
    (case_sensitive only_html_enabled only_untranslated only_with_overwrites
       : option bool) : M pyobj :=
  _get_request self ("projects/" ++ project_id ++ "/keys")
    (Some [("page", PInt (or_default 1 page));
           ("per_page", PInt (or_default 10 per_page));
           ("case_sensitive", PBool (or_default false case_sensitive));
           ("only_html_enabled", PBool (or_default false only_html_enabled));
           ("only_untranslated", PBool (or_default false only_untranslated));
           ("only_with_overwrites",
            PBool (or_default false only_with_overwrites))])
    false.

(** An [Optional[str]] argument as a Python value. *)
Definition optional_str (o : option string) : pyval :=
  match o with
  | Some s => PStr s
  | None => PNone
  end.

(** [Texterify.create_translation]; [language_id] defaults to [None]. *)
Definition create_translation (self : Texterify) (project_id : string)
    (key_id content : pyval) (language_id : option string) : M pyobj :=
  _post_request self ("projects/" ++ project_id ++ "/translations")
    (Some [("language_id", optional_str language_id);
           ("key_id", key_id);
           ("translation", PDict [("content", content)])]).

Definition no_default_language_message : string :=
  "You need to define a default language if you want to add translations for"
  ++ " your default language directly when creating a new key.".

(** [Texterify.create_key]; [default_language_translation] defaults to
    [None]. *)
Definition create_key (self : Texterify) (project_id name description : string)
    (default_language_translation : option string) : M pyobj :=
  new_key <- _post_request self ("projects/" ++ project_id ++ "/keys")
               (Some [("name", PStr name); ("description", PStr description)]) ;;
  error <- lift (py_get new_key "error") ;;
  (if negb (truthy error)
   then
     data <- lift (py_get new_key "data") ;;
     if truthy data && truthy (optional_str default_language_translation)
     then
       data <- lift (obj_getitem new_key "data") ;;
       attributes <- lift (getitem data "attributes") ;;
       key_id <- lift (getitem attributes "id") ;;
       new_translation_response <-
         create_translation self project_id key_id
           (optional_str default_language_translation) None ;;
       error <- lift (py_get new_translation_response "error") ;;
       if eq_str error "NO_DEFAULT_LANGUAGE_SPECIFIED"
       then logger_error no_default_language_message []
       else ret tt
     else ret tt
   else ret tt) ;;;
  ret new_key.

(** [Texterify.update_key] *)
Definition update_key (self : Texterify) (project_id key_id name description : string)
  : M pyobj :=
  _put_request self ("projects/" ++ project_id ++ "/keys/" ++ key_id)
    (Some [("name", PStr name); ("description", PStr description)]).

(** [Texterify.delete_keys] *)
Definition delete_keys (self : Texterify) (project_id : string) (keys : pyval)
  : M pyobj :=
  _delete_request self ("projects/" ++ project_id ++ "/keys")
    (Some [("keys", keys)]).

(** [Texterify.get_projects] *)
Definition get_projects (self : Texterify) : M pyobj :=
  _get_request self "projects" None false.

(** [Texterify.get_project] *)
Definition get_project (self : Texterify) (project_id : string) : M pyobj :=
  _get_request self ("projects/" ++ project_id) None false.

(** [Texterify.create_project] *)
Definition create_project (self : Texterify) (name description : string)
  : M pyobj :=
  _post_request self "projects"
    (Some [("project",
            PDict [("name", PStr name); ("description", PStr description)])]).

(** [Texterify.update_project] *)
Definition update_project (self : Texterify) (name description : string)
  : M pyobj :=
  _put_request self "projects"
    (Some [("project",
            PDict [("name", PStr name); ("description", PStr description)])]).

(** [Texterify.export_project] *)
Definition export_project (self : Texterify) (project_id export_config_id : string)
    (options : list (string * pyval)) : M pyobj :=
  _get_request self ("projects/" ++ project_id ++ "/exports/" ++ export_config_id)
    (Some options) true.

(** [Texterify.import_project] *)
Definition import_project (self : Texterify) (project_id language_id file_path : string)
  : M pyobj :=
  file_bytes <- read_binary file_path ;;
  let file_base64 := Base64.b64encode file_bytes in
  _post_request self ("projects/" ++ project_id ++ "/import")
    (Some [("language_id", PStr language_id); ("file", PStr file_base64)]).

(** [Texterify.get_languages]; the defaults are [page=1], [per_page=10]
    and [search=None]. *)
Definition get_languages (self : Texterify) (project_id : string)
    (page per_page : option Z) (search : pyval) : M pyobj :=
  _get_request self ("projects/" ++ project_id ++ "/languages")
    (Some [("page", PInt (or_default 1 page));
           ("per_page", PInt (or_default 10 per_page));
           ("search", if truthy search then search else PStr "")])
    false.

End Client.

(** ** What aiohttp requests *)

(** aiohttp adds the pairs of [params] to the query the URL already has
    ([ClientRequest]: the URL's own query, extended with the query built
    from [params]); [final_query] is the resulting list of decoded pairs,
    in order.  A value of [params] that is neither a [str] nor an [int]
    makes aiohttp raise a [TypeError] instead: there is no query then. *)
Module Aiohttp.

(** The text before the first [c], and the text after it when [c] occurs. *)
Fixpoint split_first (c : ascii) (s : string) : string * option string :=
  match s with
  | EmptyString => (EmptyString, None)
  | String a s' =>
      if (a =? c)%char then (EmptyString, Some s')
      else let '(before, rest) := split_first c s' in (String a before, rest)
  end.

(** [s.split(c)] *)
Fixpoint split (c : ascii) (s : string) : list string :=
  match s with
  | EmptyString => [EmptyString]
  | String a s' =>
      if (a =? c)%char then EmptyString :: split c s'
      else
        match split c s' with
        | [] => [String a EmptyString]
        | x :: rest => String a x :: rest
        end
  end.

Definition hex_value (c : ascii) : option N :=
  let n := N_of_ascii c in
  if ((48 <=? n) && (n <=? 57))%N then Some (n - 48)%N
  else if ((65 <=? n) && (n <=? 70))%N then Some (n - 55)%N
  else if ((97 <=? n) && (n <=? 102))%N then Some (n - 87)%N
  else None.

(** [urllib.parse.unquote_plus] on the bytes of the text. *)
Fixpoint unquote_plus (s : string) : string :=
  match s with
  | EmptyString => EmptyString
  | String a s1 =>
      if (a =? "+")%char then String " " (unquote_plus s1)
      else if (a =? "%")%char then
        match s1 with
        | String h (String l s3) =>
            match hex_value h, hex_value l with
            | Some x, Some y => String (ascii_of_N (x * 16 + y)) (unquote_plus s3)
            | _, _ => String a (unquote_plus s1)
            end
        | _ => String a (unquote_plus s1)
        end
      else String a (unquote_plus s1)
  end.

Definition parse_item (item : string) : string * string :=
  let '(k, v) := split_first "=" item in
  (unquote_plus k, match v with Some x => unquote_plus x | None => "" end).

(** The decoded pairs of the query a URL carries: what follows the first
    question mark.  A URL with a fragment (a [#] in the path) is outside
    this description. *)
Definition url_query (url : string) : list (string * string) :=
  match snd (split_first "?" url) with
  | None => []
  | Some q => map parse_item (filter (fun i => negb (i =? "")%string) (split "&" q))
  end.

Definition query_value (v : pyval) : option string :=
  match v with
  | PStr s => Some s
  | PInt z => Some (str_of_int z)
  | _ => None
  end.

Fixpoint params_query (l : list (string * pyval)) : option (list (string * string)) :=
  match l with
  | [] => Some []
  | (k, v) :: rest =>
      match query_value v, params_query rest with
      | Some x, Some q => Some ((k, x) :: q)
      | _, _ => None
      end
  end.

Definition final_query (r : request) : option (list (string * string)) :=
  match req_payload r with
  | Data _ => Some (url_query (req_url r))
  | Params p =>
      match params_query (Client.items p) with
      | Some q => Some (url_query (req_url r) ++ q)%list
      | None => None
      end
  end.

(** How many times a parameter occurs in a query. *)
Definition occurrences (k : string) (q : list (string * string)) : nat :=
  List.length (filter (fun kv => (fst kv =? k)%string) q).

End Aiohttp.

(** ** Derived descriptions used by the statements *)

Import Client.

(** The request [_make_request] hands to aiohttp, as a function of its
    arguments (lemma [make_request_requested] below). *)
Definition request_of (self : Texterify) (url method : string)
    (params : option (list (string * pyval))) : request :=
  let p := params_of params in
  if (method =? "GET")%string && params_truthy p
  then mkRequest method
         ((api_base_url self ++ url) ++ "?" ++ Urllib.urlencode (flatten p))
         (request_headers self) (Params (ParamsPairs (flatten p)))
  else mkRequest method (api_base_url self ++ url) (request_headers self)
         (if negb (method =? "GET")%string then Data (dumps_params p)
          else Params p).

(** The records a failed status leaves in the log. *)
Definition status_log (st : Z) : log_record :=
  mkLog (if st =? 404 then not_found_message else invalid_status_message st) [].

Definition status_error (st : Z) : exn :=
  Exception (invalid_status_message st ++ newline).

(** The record of the [except] clause. *)
Definition except_log (e : exn) : log_record := mkLog "Error:" [e].

(** The world after the [except] clause saw [e] (or did not catch it). *)
Definition after_except (e : exn) (w : world) : world :=
  if is_Exception e then log_append (except_log e) w else w.

Definition ok_status (st : Z) : bool := (st =? 200) || (st =? 400).

(** The query item the specification asks for: a boolean is written
    as the lowercase word, any other value in its string form. *)
Definition spec_query_item (kv : string * pyval) : string :=
  Urllib.quote_plus (fst kv) ++ "=" ++
  match snd kv with
  | PBool true => "true"
  | PBool false => "false"
  | v => Urllib.quote_plus (str v)
  end.

(** The condition of the specification for the second call of
    [create_key], read literally: the response has no [error] field, has
    a [data] field, and the argument was supplied. *)
Definition has_field (d : list (string * pyval)) (k : string) : bool :=
  match lookup k d with
  | Some _ => true
  | None => false
  end.

Definition spec_expects_translation (d : list (string * pyval))
    (default_language_translation : option string) : bool :=
  negb (has_field d "error") && has_field d "data" &&
  match default_language_translation with
  | Some _ => true
  | None => false
  end.

(** The condition [create_key] tests, on a response that is a dict. *)
Definition guard (d : list (string * pyval))
    (default_language_translation : option string) : bool :=
  negb (truthy (dict_get d "error")) && truthy (dict_get d "data") &&
  truthy (optional_str default_language_translation).

(** [new_key["data"]["attributes"]["id"]] on a response that is a dict. *)
Definition key_id_of (d : list (string * pyval)) : outcome pyval :=
  match getitem (PDict d) "data" with
  | Return data =>
      match getitem data "attributes" with
      | Return attributes => getitem attributes "id"
      | Raise e => Raise e
      end
  | Raise e => Raise e
  end.

(** The two requests of [create_key]. *)
Definition key_request (self : Texterify) (project_id name description : string)
  : request :=
  mkRequest "POST" (api_base_url self ++ "projects/" ++ project_id ++ "/keys")
    (request_headers self)
    (Data (Json.dumps
             (PDict [("name", PStr name); ("description", PStr description)]))).

Definition translation_request (self : Texterify) (project_id : string)
    (key_id content : pyval) (language_id : option string) : request :=
  mkRequest "POST"
    (api_base_url self ++ "projects/" ++ project_id ++ "/translations")
    (request_headers self)
    (Data (Json.dumps
             (PDict [("language_id", optional_str language_id);
                     ("key_id", key_id);
                     ("translation", PDict [("content", content)])]))).

(** A JSON string literal of plain text: the text between double quotes. *)
Definition quoted (s : string) : string :=
  String dquote (s ++ String dquote "").

(** The lowercase word of a boolean. *)
Definition bool_word (b : bool) : string := if b then "true" else "false".

(** The values aiohttp takes in [params] once booleans are flattened:
    [str], [int], and [bool]. *)
Definition scalar (v : pyval) : bool :=
  match v with
  | PStr _ | PInt _ | PBool _ => true
  | _ => false
  end.

(** The decoded pair one parameter contributes to a query. *)
Definition query_pair (kv : string * pyval) : string * string :=
  (fst kv, str (flatten_value (snd kv))).

(** *** Sample clients and worlds *)

Definition sample_client : Texterify := __init__ "user@example.com" "secret".

Definition no_files : string -> outcome (list byte) :=
  fun _ => Raise (LibraryError "FileNotFoundError" "No such file or directory").

(** A fresh world whose remote side gives the same answer to every
    request. *)
Definition answering (o : outcome response) : world :=
  mkWorld [] [] (fun _ _ => o) no_files.

(** A fresh world whose remote side answers the first request with
    [first] and every later one with [second]. *)
Definition answering_in_turn (first second : outcome response) : world :=
  mkWorld [] []
    (fun earlier _ => match earlier with [] => first | _ => second end)
    no_files.

(** A fresh world with one readable file. *)
Definition with_file (path : string) (content : list byte)
    (o : outcome response) : world :=
  mkWorld [] [] (fun _ _ => o)
    (fun p => if (p =? path)%string then Return content else no_files p).

Definition json_response (st : Z) (body : pyval) : response :=
  mkResponse st (Return body).

(** The body [{"data": {"attributes": {"id": "1"}}}]. *)
Definition created_key : list (string * pyval) :=
  [("data", PDict [("attributes", PDict [("id", PStr "1")])])].

(** A result that is a decoded JSON value, and one that is a response
    object. *)
Definition decoded (v : pyobj) : Prop := exists body, v = Json body.

Definition raw (v : pyobj) : Prop := exists resp, v = Handle resp.

(** *** Base64 as RFC 4648 describes it *)

(** The alphabet of RFC 4648, table 1: the values 0 to 25 are the
    capital letters, 26 to 51 the small letters, 52 to 61 the digits, 62
    is [+] and 63 is [/]. *)
Definition rfc4648_char (i : N) : ascii :=
  if (i <? 26)%N then ascii_of_N (65 + i)
  else if (i <? 52)%N then ascii_of_N (97 + (i - 26))
  else if (i <? 62)%N then ascii_of_N (48 + (i - 52))
  else if (i =? 62)%N then "+"%char
  else "/"%char.

(** The encoding of RFC 4648, section 4.  Three bytes are 24 bits, read
    as four groups of 6 bits: the high 6 bits of the first byte; its low
    2 bits and the high 4 bits of the second; the low 4 bits of the
    second and the high 2 bits of the third; the low 6 bits of the
    third.  A last group of one byte gives two characters and [==], of
    two bytes three characters and [=], the missing bits being zero. *)
Fixpoint rfc4648_encode (data : list byte) : string :=
  match data with
  | [] => ""
  | [a] =>
      let x := Byte.to_N a in
      String (rfc4648_char (x / 4))
        (String (rfc4648_char ((x mod 4) * 16)) "==")
  | [a; b] =>
      let x := Byte.to_N a in
      let y := Byte.to_N b in
      String (rfc4648_char (x / 4))
        (String (rfc4648_char ((x mod 4) * 16 + y / 16))
           (String (rfc4648_char ((y mod 16) * 4)) "="))
  | a :: b :: c :: rest =>
      let x := Byte.to_N a in
      let y := Byte.to_N b in
      let z := Byte.to_N c in
      String (rfc4648_char (x / 4))
        (String (rfc4648_char ((x mod 4) * 16 + y / 16))
           (String (rfc4648_char ((y mod 16) * 4 + z / 64))
              (String (rfc4648_char (z mod 64)) (rfc4648_encode rest))))
  end.

(** *** Reading base64 back *)

(** The place of a character in the base64 alphabet (0 for any other
    character, the padding among them). *)
Definition sextet_index (c : ascii) : N :=
  let n := N_of_ascii c in
  if ((65 <=? n) && (n <=? 90))%N then (n - 65)%N
  else if ((97 <=? n) && (n <=? 122))%N then (n - 71)%N
  else if ((48 <=? n) && (n <=? 57))%N then (n + 4)%N
  else if (n =? 43)%N then 62%N
  else if (n =? 47)%N then 63%N
  else 0%N.

Definition byte_of (n : N) : byte :=
  match Byte.of_N n with
  | Some b => b
  | None => x00
  end.

(** The bytes of a base64 text, four characters at a time; a group
    that ends in padding is the last one. *)
Fixpoint b64decode (s : string) : list byte :=
  match s with
  | String c1 (String c2 (String c3 (String c4 rest))) =>
      let n := (sextet_index c1 * 262144 + sextet_index c2 * 4096
                + sextet_index c3 * 64 + sextet_index c4)%N in
      if (c3 =? "=")%char then [byte_of (n / 65536)]
      else if (c4 =? "=")%char
           then [byte_of (n / 65536); byte_of ((n / 256) mod 256)]
           else byte_of (n / 65536) :: byte_of ((n / 256) mod 256)
                  :: byte_of (n mod 256) :: b64decode rest
  | _ => []
  end.

(** Whether every character of a text passes a test. *)
Fixpoint all_chars (p : ascii -> bool) (s : string) : bool :=
  match s with
  | EmptyString => true
  | String c s' => p c && all_chars p s'
  end.

(** The characters [json.dumps] writes as they are: printable ASCII
    other than the double quote and the backslash. *)
Definition json_plain (c : ascii) : bool :=
  let n := N_of_ascii c in
  ((32 <=? n) && (n <=? 126) && negb (n =? 34) && negb (n =? 92))%N.

(** ** The library functions on known values *)

(** The test vectors of RFC 4648 for base64. *)
Example b64encode_vectors :
  map (fun s => Base64.b64encode (list_byte_of_string s))
    [""; "f"; "fo"; "foo"; "foob"; "fooba"; "foobar"]
  = [""; "Zg=="; "Zm8="; "Zm9v"; "Zm9vYg=="; "Zm9vYmE="; "Zm9vYmFy"].
Proof. reflexivity. Qed.

Example urlencode_sample :
  Urllib.urlencode [("page", PInt 1); ("a b", PStr "x&y=z/~"); ("n", PNone)]
  = "page=1&a+b=x%26y%3Dz%2F~&n=None".
Proof. reflexivity. Qed.

Example dumps_sample :
  Json.dumps (PDict [("keys", PList [PStr "1"; PInt 2; PBool false; PNone])])
  = "{" ++ quoted "keys" ++ ": [" ++ quoted "1" ++ ", 2, false, null]}".
Proof. reflexivity. Qed.

Example str_lower_bool :
  (lower (str (PBool true)), lower (str (PBool false))) = ("true", "false").
Proof. reflexivity. Qed.

(** ** The dispatcher, case by case *)

Lemma ok_status_true (st : Z) : st = 200 \/ st = 400 -> ok_status st = true.
Proof. intros [-> | ->]; reflexivity. Qed.

Lemma ok_status_false (st : Z) : st <> 200 -> st <> 400 -> ok_status st = false.
Proof.
  intros H200 H400. unfold ok_status.
  destruct (Z.eqb_spec st 200); [ contradiction | ].
  destruct (Z.eqb_spec st 400); [ contradiction | reflexivity ].
Qed.


Section Dispatch.

Variable self : Texterify.
Variables url method : string.
Variable params : option (list (string * pyval)).
Variable is_file_download : bool.
Variable w : world.

Let r := request_of self url method params.
Let run := _make_request self url method params is_file_download w.

Lemma make_request_unfold :
  run =
  match network w (requested w) r with
  | Raise e => (Raise e, after_except e (request_append r w))
  | Return resp =>
      if ok_status (status resp)
      then
        if is_file_download then (Return (Handle resp), request_append r w)
        else
          match json resp with
          | Return body => (Return (Json body), request_append r w)
          | Raise e => (Raise e, after_except e (request_append r w))
          end
      else
        (Raise (status_error (status resp)),
         log_append (except_log (status_error (status resp)))
           (log_append (status_log (status resp)) (request_append r w)))
  end.
Proof.
  subst run r.
  unfold _make_request, request_of, try_except, bind, session_request.
  destruct (method =? "GET")%string;
    destruct (params_truthy (params_of params));
    cbn [negb andb req_method req_url req_headers req_payload];
    (destruct (network w (requested w) _) as [resp | e];
     [ | unfold after_except, logger_error, raise;
         destruct (is_Exception e); reflexivity ]);
    unfold ok_status, status_log, status_error;
    destruct (status resp =? 200), (status resp =? 400); cbn [negb andb orb];
    try (destruct is_file_download; cbn [negb]; unfold lift, ret;
         [ reflexivity
         | destruct (json resp) as [body | e];
           [ reflexivity
           | unfold after_except, logger_error, raise;
             destruct (is_Exception e); reflexivity ] ]);
    destruct (status resp =? 404); reflexivity.
Qed.

Lemma make_request_requested :
  requested (snd run) = (requested w ++ [r])%list.
Proof.
  rewrite make_request_unfold.
  destruct (network w (requested w) r) as [resp | e].
  - destruct (ok_status (status resp)); [ | reflexivity ].
    destruct is_file_download; [ reflexivity | ].
    destruct (json resp) as [body | e]; [ reflexivity | ].
    unfold after_except; destruct (is_Exception e); reflexivity.
  - unfold after_except; destruct (is_Exception e); reflexivity.
Qed.

(** A call that returns has logged nothing and got a 200 or a 400. *)
Lemma make_request_returns (v : pyobj) (w1 : world) :
  run = (Return v, w1) ->
  w1 = request_append r w /\
  exists resp,
    network w (requested w) r = Return resp /\
    ok_status (status resp) = true /\
    (if is_file_download then v = Handle resp
     else exists body, json resp = Return body /\ v = Json body).
Proof.
  rewrite make_request_unfold.
  destruct (network w (requested w) r) as [resp | e]; [ | discriminate ].
  destruct (ok_status (status resp)) eqn:Hst; [ | discriminate ].
  destruct is_file_download.
  - intros H; inversion H; subst. split; [ reflexivity | ].
    exists resp. split; [ reflexivity | ]. split; [ assumption | reflexivity ].
  - destruct (json resp) as [body | e] eqn:Hj; [ | discriminate ].
    intros H; inversion H; subst. split; [ reflexivity | ].
    exists resp. split; [ reflexivity | ]. split; [ assumption | ].
    exists body. split; [ assumption | reflexivity ].
Qed.

End Dispatch.

(** ** Status classification *)

(** C2, as the code has it.  A response with status 200 or 400 raises
    no status error: the outcome of the call is the outcome of
    [response.json()], so a body that decodes is returned as it is and
    nothing is logged, and a body that does not decode raises the
    decoder's error; for a file download the response object itself is
    returned.  Any other status raises the builtin [Exception] whose
    message carries the status; a 404 and any other such status differ
    in the first logged message only, the class of the raised error is
    the same. *)
Theorem status_classification :
  forall self url method params is_file_download w resp,
    network w (requested w) (request_of self url method params) = Return resp ->
    let run := _make_request self url method params is_file_download w in
    (status resp = 200 \/ status resp = 400 ->
     (is_file_download = true ->
      fst run = Return (Handle resp) /\ logged (snd run) = logged w) /\
     (is_file_download = false ->
      fst run = match json resp with
                | Return body => Return (Json body)
                | Raise e => Raise e
                end /\
      (forall body, json resp = Return body ->
       fst run = Return (Json body) /\ logged (snd run) = logged w))) /\
    (status resp <> 200 -> status resp <> 400 ->
     fst run =
       Raise (Exception ("Invalid response status received: "
                         ++ str (PInt (status resp)) ++ newline)) /\
     (forall e, fst run = Raise e -> exn_class e = "Exception") /\
     logged (snd run) =
       (logged w ++
        [mkLog (if status resp =? 404 then not_found_message
                else "Invalid response status received: "
                     ++ str (PInt (status resp))) [];
         except_log (status_error (status resp))])%list).
Proof.
  intros self url method params dl w resp Hnet run. subst run.
  rewrite make_request_unfold, Hnet. split.
  - intros Hst.
    rewrite (ok_status_true _ Hst). split.
    + intros ->. split; reflexivity.
    + intros ->. split.
      * destruct (json resp); reflexivity.
      * intros body ->. split; reflexivity.
  - intros H200 H400.
    rewrite (ok_status_false _ H200 H400). cbn [fst snd]. split; [ reflexivity | ]. split.
    + intros e He. inversion He. reflexivity.
    + unfold log_append, request_append, status_log; cbn [logged].
      rewrite <- app_assoc. reflexivity.
Qed.

(** The statement at a 400 answer with body [{"error": "SOME_CODE"}] and
    at a 404 and a 500 answer. *)
Lemma status_classification_witness :
  let body := PDict [("error", PStr "SOME_CODE")] in
  let run400 := get_projects sample_client (answering (Return (json_response 400 body))) in
  let run404 := get_projects sample_client (answering (Return (json_response 404 body))) in
  let run500 := get_projects sample_client (answering (Return (json_response 500 body))) in
  (fst run400 = Return (Json body) /\ logged (snd run400) = []) /\
  (forall e, fst run404 = Raise e -> exn_class e = "Exception") /\
  (forall e, fst run500 = Raise e -> exn_class e = "Exception") /\
  fst run500 =
    Raise (Exception ("Invalid response status received: 500" ++ newline)).
Proof.
  intros body run400 run404 run500.
  pose proof (status_classification sample_client "projects" "GET" None false
                (answering (Return (json_response 400 body)))
                (json_response 400 body) eq_refl) as H400.
  pose proof (status_classification sample_client "projects" "GET" None false
                (answering (Return (json_response 404 body)))
                (json_response 404 body) eq_refl) as H404.
  pose proof (status_classification sample_client "projects" "GET" None false
                (answering (Return (json_response 500 body)))
                (json_response 500 body) eq_refl) as H500.
  cbv zeta in H400, H404, H500.
  destruct H400 as [H400 _]. destruct H404 as [_ H404]. destruct H500 as [_ H500].
  split; [ | split; [ | split ] ].
  - exact (proj2 (proj2 (H400 (or_intror eq_refl)) eq_refl) body eq_refl).
  - apply H404; cbn; discriminate.
  - apply H500; cbn; discriminate.
  - apply H500; cbn; discriminate.
Defined.

(** C2 as it is written fails where the body does not decode: a 400
    answer whose [response.json()] raises (an HTML error page, say) is
    not returned to the caller; the decoder's error is raised, after one
    log record. *)
Lemma status_400_undecodable_body_is_raised :
  let e := LibraryError "ContentTypeError" "unexpected mimetype: text/html" in
  let resp := mkResponse 400 (Raise e) in
  let run := get_projects sample_client (answering (Return resp)) in
  status resp = 400 /\
  fst run = Raise e /\
  (forall v, fst run <> Return v) /\
  logged (snd run) = [mkLog "Error:" [e]].
Proof.
  cbv zeta. split; [ reflexivity | ]. split; [ reflexivity | ].
  split; [ intros v; discriminate | reflexivity ].
Qed.

(** ** Logging of failures *)

(** An exception of the transport or of the decoder that [except
    Exception] catches is logged once and raised again as it is. *)
Lemma transport_error_logged_once :
  forall self url method params is_file_download w e,
    network w (requested w) (request_of self url method params) = Raise e ->
    is_Exception e = true ->
    let run := _make_request self url method params is_file_download w in
    fst run = Raise e /\ logged (snd run) = (logged w ++ [except_log e])%list.
Proof.
  intros self url method params dl w e Hnet He run. subst run.
  rewrite make_request_unfold, Hnet. unfold after_except. rewrite He.
  split; reflexivity.
Qed.

Lemma decode_error_logged_once :
  forall self url method params w resp e,
    network w (requested w) (request_of self url method params) = Return resp ->
    ok_status (status resp) = true ->
    json resp = Raise e ->
    is_Exception e = true ->
    let run := _make_request self url method params false w in
    fst run = Raise e /\ logged (snd run) = (logged w ++ [except_log e])%list.
Proof.
  intros self url method params w resp e Hnet Hok Hj He run. subst run.
  rewrite make_request_unfold, Hnet, Hok, Hj. unfold after_except. rewrite He.
  split; reflexivity.
Qed.

(** C4, on the code: a status outside 200 and 400 is logged where it is
    detected, and the error raised for it is caught by the dispatcher's
    own [except] clause, which logs it a second time before raising it
    again.  The failure reaches the caller with two log records. *)
Theorem status_failure_logged_twice :
  forall self url method params is_file_download w resp,
    network w (requested w) (request_of self url method params) = Return resp ->
    status resp <> 200 -> status resp <> 400 ->
    let run := _make_request self url method params is_file_download w in
    exists e,
      fst run = Raise e /\
      logged (snd run) =
        (logged w ++ [status_log (status resp); mkLog "Error:" [e]])%list.
Proof.
  intros self url method params dl w resp Hnet H200 H400 run. subst run.
  rewrite make_request_unfold, Hnet.
  rewrite (ok_status_false _ H200 H400). exists (status_error (status resp)). split; [ reflexivity | ].
  unfold log_append, request_append; cbn [logged snd].
  rewrite <- app_assoc. reflexivity.
Qed.

(** [get_projects()] against a server that answers 500: two records. *)
Lemma status_failure_logged_twice_witness :
  let run := get_projects sample_client
               (answering (Return (json_response 500 PNone))) in
  exists e,
    fst run = Raise e /\
    logged (snd run) =
      [mkLog "Invalid response status received: 500" []; mkLog "Error:" [e]].
Proof.
  cbv zeta.
  apply (status_failure_logged_twice sample_client "projects" "GET" None false
           (answering (Return (json_response 500 PNone)))
           (json_response 500 PNone) eq_refl);
    cbn; discriminate.
Defined.

(** ** File download *)

(** C7. [export_project] calls the dispatcher with [is_file_download]
    true, and on a 200 or 400 answer its result is the response object
    itself, whatever [response.json()] would give: never a decoded
    value. *)
Theorem export_project_returns_handle :
  forall self project_id export_config_id options w resp,
    let url := "projects/" ++ project_id ++ "/exports/" ++ export_config_id in
    network w (requested w) (request_of self url "GET" (Some options))
      = Return resp ->
    status resp = 200 \/ status resp = 400 ->
    let run := export_project self project_id export_config_id options w in
    run = _make_request self url "GET" (Some options) true w /\
    fst run = Return (Handle resp) /\
    (forall body, fst run <> Return (Json body)).
Proof.
  intros self pid cfg options w resp url Hnet Hst run. subst run.
  split; [ reflexivity | ].
  unfold export_project, _get_request. fold url.
  rewrite make_request_unfold, Hnet.
  rewrite (ok_status_true _ Hst). split; [ reflexivity | ]. intros body; discriminate.
Qed.

(** An export answered 200 with a JSON body: the handle comes back. *)
Lemma export_project_returns_handle_witness :
  let resp := json_response 200 (PDict [("data", PStr "x")]) in
  fst (export_project sample_client "1" "export_config_id" []
         (answering (Return resp))) = Return (Handle resp).
Proof.
  cbv zeta.
  exact (proj1 (proj2 (export_project_returns_handle sample_client "1"
                         "export_config_id" []
                         (answering (Return (json_response 200 (PDict [("data", PStr "x")]))))
                         (json_response 200 (PDict [("data", PStr "x")]))
                         eq_refl (or_introl eq_refl)))).
Defined.

(** ** Query strings *)

(** The two paths agree on every pair: flattening a boolean first and
    encoding the pair gives the item the specification asks for. *)
Lemma encode_flattened (kv : string * pyval) :
  Urllib.encode_pair (fst kv, flatten_value (snd kv)) = spec_query_item kv.
Proof.
  destruct kv as [k v]. unfold Urllib.encode_pair, spec_query_item.
  destruct v as [ | [ | ] | z | s | l | d ]; reflexivity.
Qed.

Lemma urlencode_flatten (d : list (string * pyval)) :
  Urllib.urlencode (flatten (ParamsDict d)) = join "&" (map spec_query_item d).
Proof.
  unfold Urllib.urlencode, flatten, items. rewrite map_map.
  f_equal. apply map_ext. intros kv. apply encode_flattened.
Qed.

Lemma request_of_get (self : Texterify) (url : string)
    (d : list (string * pyval)) :
  d <> [] ->
  request_of self url "GET" (Some d) =
  mkRequest "GET"
    ((api_base_url self ++ url) ++ "?" ++ join "&" (map spec_query_item d))
    (request_headers self)
    (Params (ParamsPairs (flatten (ParamsDict d)))).
Proof.
  intros Hd. unfold request_of.
  destruct d as [ | kv d ]; [ contradiction | ].
  cbn [params_of params_truthy String.eqb Ascii.eqb Bool.eqb andb].
  rewrite urlencode_flatten. reflexivity.
Qed.

(** C9. For a GET request with parameters, the query string is made of
    one [key=value] item per parameter, in order; the item of a boolean
    parameter is [key=true] or [key=false], in lowercase, and the item of
    any other value carries its string form.  The pairs handed to aiohttp
    carry the same lowercase words. *)
Theorem get_booleans_lowercase :
  forall self url d is_file_download w,
    d <> [] ->
    let run := _make_request self url "GET" (Some d) is_file_download w in
    exists r,
      requested (snd run) = (requested w ++ [r])%list /\
      req_url r =
        (api_base_url self ++ url) ++ "?" ++ join "&" (map spec_query_item d) /\
      req_payload r = Params (ParamsPairs (flatten (ParamsDict d))) /\
      (forall k b, In (k, PBool b) d ->
         In (Urllib.quote_plus k ++ "=" ++ (if b then "true" else "false"))
            (map spec_query_item d) /\
         In (k, PStr (if b then "true" else "false")) (flatten (ParamsDict d))) /\
      (forall k v, In (k, v) d -> (forall b, v <> PBool b) ->
         In (Urllib.quote_plus k ++ "=" ++ Urllib.quote_plus (str v))
            (map spec_query_item d)).
Proof.
  intros self url d dl w Hd run. subst run.
  exists (request_of self url "GET" (Some d)).
  split; [ apply make_request_requested | ].
  rewrite (request_of_get self url d Hd). cbn [req_url req_payload].
  split; [ reflexivity | ]. split; [ reflexivity | ]. split.
  - intros k b Hin. split.
    + apply in_map_iff. exists (k, PBool b). split; [ | assumption ].
      destruct b; reflexivity.
    + unfold flatten; cbn [items]. apply in_map_iff.
      exists (k, PBool b). split; [ | assumption ].
      destruct b; reflexivity.
  - intros k v Hin Hv. apply in_map_iff. exists (k, v).
    split; [ | assumption ].
    unfold spec_query_item; cbn [fst snd].
    destruct v as [ | [ | ] | z | s | l | d' ]; try reflexivity;
      exfalso; eapply Hv; reflexivity.
Qed.

(** Two parameters, one of them [True]. *)
Lemma get_booleans_lowercase_witness :
  exists r,
    requested (snd (_make_request sample_client "projects/p/keys" "GET"
                      (Some [("case_sensitive", PBool true); ("page", PInt 2)])
                      false (answering (Return (json_response 200 PNone)))))
      = [r] /\
    req_url r =
      "https://app.texterify.com/api/v1/projects/p/keys?case_sensitive=true&page=2".
Proof.
  destruct (get_booleans_lowercase sample_client "projects/p/keys"
              [("case_sensitive", PBool true); ("page", PInt 2)] false
              (answering (Return (json_response 200 PNone))))
    as [r [Hreq [Hurl _]]].
  - discriminate.
  - exists r. split; [ exact Hreq | exact Hurl ].
Defined.

(** The decimal form of an [int] has digits and a sign only, so
    [quote_plus] leaves it as it is. *)
Lemma quote_plus_uint (d : Decimal.uint) :
  Urllib.quote_plus (NilEmpty.string_of_uint d) = NilEmpty.string_of_uint d.
Proof.
  induction d; cbn [NilEmpty.string_of_uint Urllib.quote_plus];
    [ reflexivity | .. ];
    rewrite IHd; reflexivity.
Qed.

Lemma quote_plus_int (z : Z) :
  Urllib.quote_plus (str_of_int z) = str_of_int z.
Proof.
  unfold str_of_int, NilZero.string_of_int, NilZero.string_of_uint.
  destruct (Z.to_int z) as [d | d]; destruct d;
    try reflexivity;
    cbn [Urllib.quote_plus];
    rewrite ?quote_plus_uint; try reflexivity;
    cbn [NilEmpty.string_of_uint Urllib.quote_plus]; rewrite quote_plus_uint;
    reflexivity.
Qed.

(** The request of [get_keys], with each value read through
    [or_default]. *)
Lemma get_keys_request :
  forall self project_id page per_page case_sensitive only_html_enabled
         only_untranslated only_with_overwrites w,
    let run := get_keys self project_id page per_page case_sensitive
                 only_html_enabled only_untranslated only_with_overwrites w in
    let p := or_default 1 page in
    let pp := or_default 10 per_page in
    let cs := or_default false case_sensitive in
    let ohe := or_default false only_html_enabled in
    let ou := or_default false only_untranslated in
    let owo := or_default false only_with_overwrites in
    requested (snd run) =
      (requested w ++
       [mkRequest "GET"
          ((api_base_url self ++ "projects/" ++ project_id ++ "/keys")
           ++ "?page=" ++ str_of_int p
           ++ "&per_page=" ++ str_of_int pp
           ++ "&case_sensitive=" ++ bool_word cs
           ++ "&only_html_enabled=" ++ bool_word ohe
           ++ "&only_untranslated=" ++ bool_word ou
           ++ "&only_with_overwrites=" ++ bool_word owo)
          (request_headers self)
          (Params (ParamsPairs
             [("page", PInt p); ("per_page", PInt pp);
              ("case_sensitive", PStr (bool_word cs));
              ("only_html_enabled", PStr (bool_word ohe));
              ("only_untranslated", PStr (bool_word ou));
              ("only_with_overwrites", PStr (bool_word owo))]))])%list.
Proof.
  intros self pid page per_page cs0 ohe0 ou0 owo0 w run p pp cs ohe ou owo.
  subst run. unfold get_keys, _get_request.
  rewrite make_request_requested. fold p pp cs ohe ou owo.
  rewrite request_of_get by discriminate.
  do 2 f_equal. f_equal.
  - f_equal. cbn [map join]. unfold spec_query_item; cbn [fst snd str repr].
    rewrite !quote_plus_int.
    destruct cs, ohe, ou, owo; reflexivity.
  - unfold flatten; cbn [items map fst snd flatten_value].
    destruct cs, ohe, ou, owo; reflexivity.
Qed.

(** C8. Whatever arguments the caller gives, [get_keys] requests the
    keys URL with the six fields [page], [per_page], [case_sensitive],
    [only_html_enabled], [only_untranslated] and [only_with_overwrites]
    in its query string, each with the caller's value when one is given
    and with its default ([1], [10], [False]) when none is. *)
Theorem get_keys_sends_six_fields :
  forall self project_id page per_page case_sensitive only_html_enabled
         only_untranslated only_with_overwrites w,
    let run := get_keys self project_id page per_page case_sensitive
                 only_html_enabled only_untranslated only_with_overwrites w in
    let p := match page with Some n => n | None => 1 end in
    let pp := match per_page with Some n => n | None => 10 end in
    let flag (arg : option bool) :=
      match arg with Some b => b | None => false end in
    let cs := flag case_sensitive in
    let ohe := flag only_html_enabled in
    let ou := flag only_untranslated in
    let owo := flag only_with_overwrites in
    requested (snd run) =
      (requested w ++
       [mkRequest "GET"
          ((api_base_url self ++ "projects/" ++ project_id ++ "/keys")
           ++ "?page=" ++ str_of_int p
           ++ "&per_page=" ++ str_of_int pp
           ++ "&case_sensitive=" ++ (if cs then "true" else "false")
           ++ "&only_html_enabled=" ++ (if ohe then "true" else "false")
           ++ "&only_untranslated=" ++ (if ou then "true" else "false")
           ++ "&only_with_overwrites=" ++ (if owo then "true" else "false"))
          (request_headers self)
          (Params (ParamsPairs
             [("page", PInt p); ("per_page", PInt pp);
              ("case_sensitive", PStr (if cs then "true" else "false"));
              ("only_html_enabled", PStr (if ohe then "true" else "false"));
              ("only_untranslated", PStr (if ou then "true" else "false"));
              ("only_with_overwrites",
               PStr (if owo then "true" else "false"))]))])%list.
Proof.
  intros self pid page per_page cs ohe ou owo w.
  exact (get_keys_request self pid page per_page cs ohe ou owo w).
Qed.

(** [get_keys("p", page=7, per_page=50, case_sensitive=True)]: the three
    values given and the three defaults; and [get_keys("p")]: the six
    defaults. *)
Lemma get_keys_sends_six_fields_witness :
  requested (snd (get_keys sample_client "p" (Some 7) (Some 50) (Some true)
                    None None None
                    (answering (Return (json_response 200 PNone))))) =
    [mkRequest "GET"
       "https://app.texterify.com/api/v1/projects/p/keys?page=7&per_page=50&case_sensitive=true&only_html_enabled=false&only_untranslated=false&only_with_overwrites=false"
       (request_headers sample_client)
       (Params (ParamsPairs
          [("page", PInt 7); ("per_page", PInt 50);
           ("case_sensitive", PStr "true");
           ("only_html_enabled", PStr "false");
           ("only_untranslated", PStr "false");
           ("only_with_overwrites", PStr "false")]))] /\
  requested (snd (get_keys sample_client "p" None None None None None None
                    (answering (Return (json_response 200 PNone))))) =
    [mkRequest "GET"
       "https://app.texterify.com/api/v1/projects/p/keys?page=1&per_page=10&case_sensitive=false&only_html_enabled=false&only_untranslated=false&only_with_overwrites=false"
       (request_headers sample_client)
       (Params (ParamsPairs
          [("page", PInt 1); ("per_page", PInt 10);
           ("case_sensitive", PStr "false");
           ("only_html_enabled", PStr "false");
           ("only_untranslated", PStr "false");
           ("only_with_overwrites", PStr "false")]))].
Proof.
  split.
  - exact (get_keys_sends_six_fields sample_client "p" (Some 7) (Some 50)
             (Some true) None None None
             (answering (Return (json_response 200 PNone)))).
  - exact (get_keys_sends_six_fields sample_client "p" None None None None None
             None (answering (Return (json_response 200 PNone)))).
Defined.

(** ** Payload shaping *)

Lemma append_assoc (a b c : string) : (a ++ b) ++ c = a ++ b ++ c.
Proof.
  induction a as [ | x a IH ]; cbn [append]; [ reflexivity | ].
  rewrite IH. reflexivity.
Qed.

Lemma request_of_post (self : Texterify) (url : string)
    (d : list (string * pyval)) :
  request_of self url "POST" (Some d) =
  mkRequest "POST" (api_base_url self ++ url) (request_headers self)
    (Data (Json.dumps (PDict d))).
Proof. reflexivity. Qed.

(** C6. [create_translation] without [language_id] sends a body whose
    [language_id] is the JSON [null]; [get_languages] without [search]
    sends the query field [search] with the empty string as value. *)
Theorem defaulting_conventions :
  forall self project_id key_id content page per_page w,
    requested (snd (create_translation self project_id key_id content None w)) =
      (requested w ++
       [mkRequest "POST"
          (api_base_url self ++ "projects/" ++ project_id ++ "/translations")
          (request_headers self)
          (Data ("{" ++ quoted "language_id" ++ ": null, "
                 ++ quoted "key_id" ++ ": " ++ Json.dumps key_id ++ ", "
                 ++ quoted "translation" ++ ": {"
                 ++ quoted "content" ++ ": " ++ Json.dumps content ++ "}}"))])%list
    /\
    requested (snd (get_languages self project_id page per_page PNone w)) =
      (requested w ++
       [mkRequest "GET"
          ((api_base_url self ++ "projects/" ++ project_id ++ "/languages")
           ++ "?page=" ++ str_of_int (or_default 1 page)
           ++ "&per_page=" ++ str_of_int (or_default 10 per_page)
           ++ "&search=")
          (request_headers self)
          (Params (ParamsPairs
             [("page", PInt (or_default 1 page));
              ("per_page", PInt (or_default 10 per_page));
              ("search", PStr "")]))])%list.
Proof.
  intros self pid kid content page per_page w. split.
  - unfold create_translation, _post_request.
    rewrite make_request_requested, request_of_post.
    do 3 f_equal. cbn [Json.dumps map join fst snd optional_str].
    rewrite !append_assoc. reflexivity.
  - unfold get_languages, _get_request.
    rewrite make_request_requested, request_of_get by discriminate.
    do 2 f_equal. f_equal. f_equal.
    cbn [map join truthy]. unfold spec_query_item; cbn [fst snd str repr].
    rewrite !quote_plus_int. reflexivity.
Qed.

(** ** Key creation *)

Lemma bind_returns {A B} (m : M A) (k : A -> M B) (w : world) (b : B) :
  fst (bind m k w) = Return b ->
  exists a w1, m w = (Return a, w1) /\ fst (k a w1) = Return b.
Proof.
  unfold bind. destruct (m w) as [[a | e] w1]; cbn [fst].
  - intros H. exists a, w1. split; [ reflexivity | exact H ].
  - discriminate.
Qed.

(** A truthy [data] value is a field of the response, so the subscript
    reads what [get] read. *)
Lemma getitem_truthy (d : list (string * pyval)) (k : string) :
  truthy (dict_get d k) = true -> getitem (PDict d) k = Return (dict_get d k).
Proof.
  unfold dict_get, getitem. destruct (lookup k d); [ reflexivity | discriminate ].
Qed.

(** [create_key] after a primary call that returned a JSON object. *)
Lemma create_key_unfold :
  forall self project_id name description default_language_translation w d w1,
    _post_request self ("projects/" ++ project_id ++ "/keys")
      (Some [("name", PStr name); ("description", PStr description)]) w
    = (Return (Json (PDict d)), w1) ->
    create_key self project_id name description default_language_translation w =
    if guard d default_language_translation
    then
      match key_id_of d with
      | Raise e => (Raise e, w1)
      | Return key_id =>
          match create_translation self project_id key_id
                  (optional_str default_language_translation) None w1 with
          | (Raise e, w2) => (Raise e, w2)
          | (Return answer, w2) =>
              match py_get answer "error" with
              | Raise e => (Raise e, w2)
              | Return error =>
                  (Return (Json (PDict d)),
                   if eq_str error "NO_DEFAULT_LANGUAGE_SPECIFIED"
                   then log_append (mkLog no_default_language_message []) w2
                   else w2)
              end
          end
      end
    else (Return (Json (PDict d)), w1).
Proof.
  intros self pid name desc dlt w d w1 Hprimary.
  unfold create_key, guard, key_id_of.
  unfold bind at 1. rewrite Hprimary.
  unfold bind, lift, ret. cbn [py_get obj_getitem].
  destruct (truthy (dict_get d "error")); cbn [negb andb]; [ reflexivity | ].
  destruct (truthy (dict_get d "data")); cbn [andb]; [ | reflexivity ].
  destruct (truthy (optional_str dlt)); [ | reflexivity ].
  destruct (getitem (PDict d) "data") as [data | e]; [ | reflexivity ].
  destruct (getitem data "attributes") as [attributes | e]; [ | reflexivity ].
  destruct (getitem attributes "id") as [key_id | e]; [ | reflexivity ].
  destruct (create_translation self pid key_id (optional_str dlt) None w1)
    as [[answer | e] w2]; [ | reflexivity ].
  destruct (py_get answer "error") as [error | e]; [ | reflexivity ].
  destruct (eq_str error "NO_DEFAULT_LANGUAGE_SPECIFIED"); reflexivity.
Qed.

(** C1, as the code has it.  When the key request returns a JSON object,
    [create_key] issues one more request, the translation request with
    the key id read at [data.attributes.id] and the given translation as
    content, exactly when the [error] value of the response is absent or
    falsy, its [data] value is truthy, the translation is a non-empty
    string and the key id can be read; in every other case the key
    request is the only one.  [create_key] then returns the key
    response, except that an error raised by reading the key id, by the
    translation request, or by an answer to it that is not a JSON object
    is raised instead.  When the key request returns JSON that is not an
    object, [create_key] makes no further request and raises an
    [AttributeError]. *)
Theorem create_key_secondary_call :
  forall self project_id name description default_language_translation w v w1,
    _post_request self ("projects/" ++ project_id ++ "/keys")
      (Some [("name", PStr name); ("description", PStr description)]) w
    = (Return (Json v), w1) ->
    let run := create_key self project_id name description
                 default_language_translation w in
    match v with
    | PDict d =>
        requested (snd run) =
          (requested w ++
           key_request self project_id name description ::
           (if guard d default_language_translation
            then
              match key_id_of d with
              | Return key_id =>
                  [translation_request self project_id key_id
                     (optional_str default_language_translation) None]
              | Raise _ => []
              end
            else []))%list /\
        fst run =
          (if guard d default_language_translation
           then
             match key_id_of d with
             | Raise e => Raise e
             | Return key_id =>
                 match fst (create_translation self project_id key_id
                              (optional_str default_language_translation)
                              None w1) with
                 | Raise e => Raise e
                 | Return answer =>
                     match py_get answer "error" with
                     | Raise e => Raise e
                     | Return _ => Return (Json (PDict d))
                     end
                 end
             end
           else Return (Json (PDict d)))
    | _ =>
        requested (snd run) =
          (requested w ++ [key_request self project_id name description])%list /\
        fst run = Raise (AttributeError (type_name v) "get")
    end.
Proof.
  intros self pid name desc dlt w v w1 Hprimary run. subst run.
  assert (Hw1 : requested w1 =
                (requested w ++ [key_request self pid name desc])%list).
  { unfold _post_request in Hprimary.
    pose proof (make_request_requested self ("projects/" ++ pid ++ "/keys")
                  "POST" (Some [("name", PStr name); ("description", PStr desc)])
                  false w) as H.
    cbv zeta in H. rewrite Hprimary in H. exact H. }
  destruct v as [ | b | z | s | l | d ]; cbv iota;
    try (match goal with
         | |- _ /\ fst _ = Raise ?e =>
             assert (Hrun : create_key self pid name desc dlt w = (Raise e, w1))
               by (unfold create_key; unfold bind at 1; rewrite Hprimary;
                   reflexivity);
             rewrite Hrun; split; [ exact Hw1 | reflexivity ]
         end).
  rewrite (create_key_unfold _ _ _ _ _ _ _ _ Hprimary).
  destruct (guard d dlt).
  - destruct (key_id_of d) as [key_id | e].
    + pose proof (make_request_requested self
                    ("projects/" ++ pid ++ "/translations") "POST"
                    (Some [("language_id", optional_str None);
                           ("key_id", key_id);
                           ("translation", PDict [("content", optional_str dlt)])])
                    false w1) as H2.
      cbv zeta in H2.
      unfold create_translation, _post_request.
      destruct (_make_request self ("projects/" ++ pid ++ "/translations") "POST" _
                  false w1) as [[answer | e] w2]; cbn [snd fst] in *.
      * assert (Hreq : requested w2 =
                  (requested w ++
                   [key_request self pid name desc;
                    translation_request self pid key_id (optional_str dlt) None])%list).
        { rewrite H2, Hw1, <- app_assoc. reflexivity. }
        destruct (py_get answer "error") as [error | e]; cbn [snd fst].
        -- split; [ | reflexivity ].
           destruct (eq_str error "NO_DEFAULT_LANGUAGE_SPECIFIED"); exact Hreq.
        -- split; [ exact Hreq | reflexivity ].
      * split; [ | reflexivity ].
        rewrite H2, Hw1, <- app_assoc. reflexivity.
    + cbn [snd fst]. split; [ exact Hw1 | reflexivity ].
  - cbn [snd fst]. split; [ exact Hw1 | reflexivity ].
Qed.

(** The response [{"data": {"attributes": {"id": "1"}}}] and a non-empty
    translation: the key request, then one translation request with key
    id ["1"], and the key response is returned; with no translation
    given, the key request alone, and the key response is returned. *)
Lemma create_key_secondary_call_witness :
  let w := answering (Return (json_response 200 (PDict created_key))) in
  let run := create_key sample_client "p" "name" "text" (Some "hello") w in
  let run0 := create_key sample_client "p" "name" "text" None w in
  (requested (snd run) =
     [key_request sample_client "p" "name" "text";
      translation_request sample_client "p" (PStr "1") (PStr "hello") None] /\
   fst run = Return (Json (PDict created_key))) /\
  (requested (snd run0) = [key_request sample_client "p" "name" "text"] /\
   fst run0 = Return (Json (PDict created_key))).
Proof.
  cbv zeta. split.
  - exact (create_key_secondary_call sample_client "p" "name" "text"
             (Some "hello")
             (answering (Return (json_response 200 (PDict created_key))))
             (PDict created_key)
             (snd (_post_request sample_client "projects/p/keys"
                     (Some [("name", PStr "name"); ("description", PStr "text")])
                     (answering (Return (json_response 200 (PDict created_key))))))
             eq_refl).
  - exact (create_key_secondary_call sample_client "p" "name" "text" None
             (answering (Return (json_response 200 (PDict created_key))))
             (PDict created_key)
             (snd (_post_request sample_client "projects/p/keys"
                     (Some [("name", PStr "name"); ("description", PStr "text")])
                     (answering (Return (json_response 200 (PDict created_key))))))
             eq_refl).
Defined.

(** C1 as it is written fails in both directions and in its last part.
    A translation given as the empty string is an argument that was
    supplied, and no second request is made; so for a [data] field that
    is present and empty; an [error] field holding [null] is a field,
    and the second request is made.  And the key response is not always
    what comes back: when [data] has no [attributes] no second request
    is made and a [KeyError] is raised; when the translation request is
    answered 500, or with JSON that is not an object, its error is
    raised; and a key response that is a JSON list has neither field,
    yet it is not returned: an [AttributeError] is raised. *)
Lemma create_key_literal_condition_fails :
  (spec_expects_translation created_key (Some "") = true /\
   requested (snd (create_key sample_client "p" "name" "text" (Some "")
                     (answering (Return (json_response 200 (PDict created_key))))))
   = [key_request sample_client "p" "name" "text"]) /\
  (spec_expects_translation [("data", PDict [])] (Some "hello") = true /\
   requested (snd (create_key sample_client "p" "name" "text" (Some "hello")
                     (answering (Return (json_response 200
                                           (PDict [("data", PDict [])]))))))
   = [key_request sample_client "p" "name" "text"]) /\
  (spec_expects_translation (("error", PNone) :: created_key) (Some "hello")
   = false /\
   requested (snd (create_key sample_client "p" "name" "text" (Some "hello")
                     (answering (Return (json_response 200
                                           (PDict (("error", PNone) :: created_key)))))))
   = [key_request sample_client "p" "name" "text";
      translation_request sample_client "p" (PStr "1") (PStr "hello") None]) /\
  (spec_expects_translation [("data", PDict [("id", PStr "1")])] (Some "hello")
   = true /\
   create_key sample_client "p" "name" "text" (Some "hello")
     (answering (Return (json_response 200
                           (PDict [("data", PDict [("id", PStr "1")])]))))
   = (Raise (KeyError "attributes"),
      request_append (key_request sample_client "p" "name" "text")
        (answering (Return (json_response 200
                              (PDict [("data", PDict [("id", PStr "1")])])))))) /\
  (spec_expects_translation created_key (Some "hello") = true /\
   fst (create_key sample_client "p" "name" "text" (Some "hello")
          (answering_in_turn
             (Return (json_response 200 (PDict created_key)))
             (Return (json_response 500 PNone))))
   = Raise (Exception ("Invalid response status received: 500" ++ newline))) /\
  (spec_expects_translation created_key (Some "hello") = true /\
   fst (create_key sample_client "p" "name" "text" (Some "hello")
          (answering_in_turn
             (Return (json_response 200 (PDict created_key)))
             (Return (json_response 200 (PList [])))))
   = Raise (AttributeError "list" "get")) /\
  fst (create_key sample_client "p" "name" "text" None
         (answering (Return (json_response 200 (PList [])))))
  = Raise (AttributeError "list" "get").
Proof.
  repeat split; vm_compute; reflexivity.
Qed.

(** C10. When the translation request of [create_key] is made and
    returns a JSON object whose [error] value is anything but
    ["NO_DEFAULT_LANGUAGE_SPECIFIED"] (or is absent), [create_key] logs
    nothing, raises nothing and returns the key response; and whatever
    the second answer holds, a value [create_key] returns is the value
    the key request returned. *)
Theorem secondary_error_discarded :
  forall self project_id name description default_language_translation w,
    let primary :=
      _post_request self ("projects/" ++ project_id ++ "/keys")
        (Some [("name", PStr name); ("description", PStr description)]) w in
    let run := create_key self project_id name description
                 default_language_translation w in
    (forall d w1 key_id answer w2,
       primary = (Return (Json (PDict d)), w1) ->
       guard d default_language_translation = true ->
       key_id_of d = Return key_id ->
       create_translation self project_id key_id
         (optional_str default_language_translation) None w1
       = (Return (Json (PDict answer)), w2) ->
       dict_get answer "error" <> PStr "NO_DEFAULT_LANGUAGE_SPECIFIED" ->
       fst run = Return (Json (PDict d)) /\ logged (snd run) = logged w) /\
    (forall v, fst run = Return v -> fst primary = Return v).
Proof.
  intros self pid name desc dlt w primary run. subst primary run. split.
  - intros d w1 key_id answer w2 Hprimary Hguard Hid Hsecond Herror.
    rewrite (create_key_unfold _ _ _ _ _ _ _ _ Hprimary), Hguard, Hid, Hsecond.
    cbn [py_get].
    assert (Hneq : eq_str (dict_get answer "error")
                     "NO_DEFAULT_LANGUAGE_SPECIFIED" = false).
    { unfold eq_str. destruct (dict_get answer "error") as [ | | | s | | ];
        try reflexivity.
      destruct (String.eqb_spec s "NO_DEFAULT_LANGUAGE_SPECIFIED");
        [ subst s; contradiction Herror; reflexivity | reflexivity ]. }
    rewrite Hneq. cbn [fst snd]. split; [ reflexivity | ].
    unfold _post_request in Hprimary.
    unfold create_translation, _post_request in Hsecond.
    apply make_request_returns in Hprimary. destruct Hprimary as [-> _].
    apply make_request_returns in Hsecond. destruct Hsecond as [-> _].
    reflexivity.
  - intros v Hv. unfold create_key in Hv.
    apply bind_returns in Hv. destruct Hv as (new_key & w1 & Hprimary & Hv).
    apply bind_returns in Hv. destruct Hv as (error & w1' & _ & Hv).
    apply bind_returns in Hv. destruct Hv as (u & w2 & _ & Hv).
    rewrite Hprimary. cbn [fst]. unfold ret in Hv. cbn [fst] in Hv.
    symmetry. inversion Hv. reflexivity.
Qed.

(** The second answer is [{"error": "KEY_NOT_FOUND"}]: nothing is logged
    and the key response comes back. *)
Lemma secondary_error_discarded_witness :
  let w := answering_in_turn
             (Return (json_response 200 (PDict created_key)))
             (Return (json_response 400 (PDict [("error", PStr "KEY_NOT_FOUND")]))) in
  let run := create_key sample_client "p" "name" "text" (Some "hello") w in
  fst run = Return (Json (PDict created_key)) /\ logged (snd run) = [].
Proof.
  cbv zeta.
  refine (proj1 (secondary_error_discarded sample_client "p" "name" "text"
                   (Some "hello")
                   (answering_in_turn
                      (Return (json_response 200 (PDict created_key)))
                      (Return (json_response 400
                                 (PDict [("error", PStr "KEY_NOT_FOUND")])))))
            created_key _ (PStr "1") [("error", PStr "KEY_NOT_FOUND")] _
            eq_refl eq_refl eq_refl eq_refl _).
  cbn. discriminate.
Defined.

(** ** The two encodings of the GET parameters *)

Section QueryRoundTrip.

Import Aiohttp Urllib.

Lemma contains_char_app (c : ascii) (a b : string) :
  contains_char c (a ++ b) = contains_char c a || contains_char c b.
Proof.
  induction a as [ | x a IH ]; cbn [append contains_char]; [ reflexivity | ].
  rewrite IH, orb_assoc. reflexivity.
Qed.

(** An encoded character holds neither [&] nor [=]. *)
Lemma quote_plus_char_plain (c : ascii) :
  contains_char "&" (quote_plus_char c) = false /\
  contains_char "=" (quote_plus_char c) = false.
Proof.
  destruct c as [[] [] [] [] [] [] [] []]; split; reflexivity.
Qed.

Lemma quote_plus_plain (s : string) :
  contains_char "&" (quote_plus s) = false /\
  contains_char "=" (quote_plus s) = false.
Proof.
  induction s as [ | c s [IH1 IH2] ]; cbn [quote_plus]; [ split; reflexivity | ].
  rewrite !contains_char_app, IH1, IH2.
  destruct (quote_plus_char_plain c) as [-> ->]. split; reflexivity.
Qed.

(** Decoding undoes the encoding, character by character. *)
Lemma unquote_quote_char (c : ascii) (rest : string) :
  unquote_plus (quote_plus_char c ++ rest) = String c (unquote_plus rest).
Proof.
  destruct c as [[] [] [] [] [] [] [] []]; reflexivity.
Qed.

Lemma unquote_quote (s : string) : unquote_plus (quote_plus s) = s.
Proof.
  induction s as [ | c s IH ]; cbn [quote_plus]; [ reflexivity | ].
  rewrite unquote_quote_char, IH. reflexivity.
Qed.

Lemma split_first_app (c : ascii) (a b : string) :
  contains_char c a = false ->
  split_first c (a ++ String c b) = (a, Some b).
Proof.
  induction a as [ | x a IH ]; cbn [append split_first contains_char].
  - rewrite Ascii.eqb_refl. reflexivity.
  - intros H. apply orb_false_iff in H. destruct H as [Hx Ha].
    rewrite Hx, (IH Ha). reflexivity.
Qed.

Lemma split_plain (c : ascii) (a : string) :
  contains_char c a = false -> split c a = [a].
Proof.
  induction a as [ | x a IH ]; cbn [split contains_char]; [ reflexivity | ].
  intros H. apply orb_false_iff in H. destruct H as [Hx Ha].
  rewrite Hx, (IH Ha). reflexivity.
Qed.

Lemma split_app (c : ascii) (a b : string) :
  contains_char c a = false ->
  split c (a ++ String c b) = a :: split c b.
Proof.
  induction a as [ | x a IH ]; cbn [append split contains_char].
  - rewrite Ascii.eqb_refl. reflexivity.
  - intros H. apply orb_false_iff in H. destruct H as [Hx Ha].
    rewrite Hx, (IH Ha). reflexivity.
Qed.

Lemma split_join (c : ascii) (l : list string) :
  l <> [] ->
  Forall (fun x => contains_char c x = false) l ->
  split c (join (String c "") l) = l.
Proof.
  intros Hl Hall. induction Hall as [ | x l Hx Hall IH ]; [ contradiction | ].
  destruct l as [ | y l ].
  - cbn [join]. apply split_plain. exact Hx.
  - change (join (String c "") (x :: y :: l))
      with (x ++ String c (join (String c "") (y :: l))).
    rewrite (split_app c x _ Hx), IH by discriminate. reflexivity.
Qed.

Lemma encode_pair_plain (kv : string * pyval) :
  contains_char "&" (encode_pair kv) = false.
Proof.
  unfold encode_pair. rewrite !contains_char_app.
  rewrite (proj1 (quote_plus_plain (fst kv))).
  rewrite (proj1 (quote_plus_plain (str (snd kv)))). reflexivity.
Qed.

Lemma encode_pair_not_empty (kv : string * pyval) :
  negb (encode_pair kv =? "")%string = true.
Proof.
  unfold encode_pair.
  destruct (quote_plus (fst kv)); reflexivity.
Qed.

Lemma parse_encode_pair (kv : string * pyval) :
  parse_item (encode_pair kv) = (fst kv, str (snd kv)).
Proof.
  unfold parse_item, encode_pair.
  change (quote_plus (fst kv) ++ "=" ++ quote_plus (str (snd kv)))
    with (quote_plus (fst kv) ++ String "=" (quote_plus (str (snd kv)))).
  rewrite split_first_app by apply quote_plus_plain.
  rewrite !unquote_quote. reflexivity.
Qed.

(** The query a URL carries after [urlencode] folded the pairs into it. *)
Lemma url_query_urlencode (prefix : string) (l : list (string * pyval)) :
  l <> [] ->
  contains_char "?" prefix = false ->
  url_query (prefix ++ "?" ++ urlencode l) =
  map (fun kv => (fst kv, str (snd kv))) l.
Proof.
  intros Hl Hprefix. unfold url_query.
  change (prefix ++ "?" ++ urlencode l) with (prefix ++ String "?" (urlencode l)).
  rewrite split_first_app by exact Hprefix. cbn [snd].
  unfold urlencode.
  rewrite split_join.
  - rewrite forallb_filter_id.
    + rewrite map_map. apply map_ext. intros kv. apply parse_encode_pair.
    + apply forallb_forall. intros x Hx. apply in_map_iff in Hx.
      destruct Hx as [kv [<- _]]. apply encode_pair_not_empty.
  - destruct l; [ contradiction | discriminate ].
  - apply Forall_forall. intros x Hx. apply in_map_iff in Hx.
    destruct Hx as [kv [<- _]]. apply encode_pair_plain.
Qed.

(** The pairs aiohttp reads from [params] after the flattening. *)
Lemma params_query_flatten (d : list (string * pyval)) :
  Forall (fun kv => scalar (snd kv) = true) d ->
  params_query (flatten (ParamsDict d)) = Some (map query_pair d).
Proof.
  unfold flatten; cbn [items].
  induction 1 as [ | [k v] d Hv Hall IH ]; [ reflexivity | ].
  cbn [map params_query fst snd]. rewrite IH.
  destruct v as [ | [ | ] | z | s | l | d' ]; try discriminate Hv; reflexivity.
Qed.

End QueryRoundTrip.

Lemma occurrences_app (k : string) (a b : list (string * string)) :
  Aiohttp.occurrences k (a ++ b) =
  (Aiohttp.occurrences k a + Aiohttp.occurrences k b)%nat.
Proof.
  unfold Aiohttp.occurrences. rewrite filter_app, length_app. reflexivity.
Qed.

Lemma occurrences_present (k : string) (d : list (string * pyval)) :
  In k (map fst d) -> (1 <= Aiohttp.occurrences k (map query_pair d))%nat.
Proof.
  unfold Aiohttp.occurrences.
  induction d as [ | [k' v] d IH ]; cbn [map fst In filter query_pair].
  - contradiction.
  - intros [Hk | Hin].
    + subst k'. rewrite String.eqb_refl. cbn [List.length]. lia.
    + specialize (IH Hin). destruct (k' =? k)%string; cbn [List.length]; lia.
Qed.

(** C3, on the code: a GET request with parameters encodes them on both
    paths at once.  The pairs are folded into the URL and the same pairs
    are handed to aiohttp as [params], which adds them to the query the
    URL already has: the query requested holds the whole parameter list
    twice, so every parameter occurs in it an even number of times, two
    at least. *)
Theorem get_params_encoded_twice :
  forall self url d is_file_download w,
    d <> [] ->
    contains_char "?" (api_base_url self ++ url) = false ->
    Forall (fun kv => scalar (snd kv) = true) d ->
    let run := _make_request self url "GET" (Some d) is_file_download w in
    exists r,
      requested (snd run) = (requested w ++ [r])%list /\
      req_url r =
        (api_base_url self ++ url) ++ "?"
        ++ Urllib.urlencode (flatten (ParamsDict d)) /\
      req_payload r = Params (ParamsPairs (flatten (ParamsDict d))) /\
      Aiohttp.final_query r = Some (map query_pair d ++ map query_pair d)%list /\
      (forall k, In k (map fst d) ->
         Aiohttp.occurrences k (map query_pair d ++ map query_pair d)
         = (2 * Aiohttp.occurrences k (map query_pair d))%nat /\
         (2 <= Aiohttp.occurrences k (map query_pair d ++ map query_pair d))%nat).
Proof.
  intros self url d dl w Hd Hurl Hscalar run. subst run.
  exists (request_of self url "GET" (Some d)).
  split; [ apply make_request_requested | ].
  rewrite (request_of_get self url d Hd), <- urlencode_flatten.
  cbn [req_url req_payload].
  split; [ reflexivity | ]. split; [ reflexivity | ]. split.
  - unfold Aiohttp.final_query; cbn [req_url req_payload items].
    rewrite (params_query_flatten d Hscalar).
    rewrite url_query_urlencode.
    + unfold flatten; cbn [items]. rewrite map_map. reflexivity.
    + unfold flatten; cbn [items]. destruct d; [ contradiction | discriminate ].
    + exact Hurl.
  - intros k Hk. rewrite occurrences_app.
    pose proof (occurrences_present k d Hk). lia.
Qed.

(** [get_keys("p")] with every default: twelve pairs are requested, each
    of the six fields twice. *)
Lemma get_params_encoded_twice_witness :
  exists r,
    requested (snd (get_keys sample_client "p" None None None None None None
                      (answering (Return (json_response 200 (PDict [])))))) = [r] /\
    Aiohttp.final_query r =
      Some [("page", "1"); ("per_page", "10"); ("case_sensitive", "false");
            ("only_html_enabled", "false"); ("only_untranslated", "false");
            ("only_with_overwrites", "false");
            ("page", "1"); ("per_page", "10"); ("case_sensitive", "false");
            ("only_html_enabled", "false"); ("only_untranslated", "false");
            ("only_with_overwrites", "false")] /\
    Aiohttp.occurrences "page"
      (match Aiohttp.final_query r with Some q => q | None => [] end) = 2%nat.
Proof.
  destruct (get_params_encoded_twice sample_client "projects/p/keys"
              [("page", PInt 1); ("per_page", PInt 10);
               ("case_sensitive", PBool false);
               ("only_html_enabled", PBool false);
               ("only_untranslated", PBool false);
               ("only_with_overwrites", PBool false)]
              false (answering (Return (json_response 200 (PDict [])))))
    as [r [Hreq [_ [_ [Hquery _]]]]].
  - discriminate.
  - reflexivity.
  - repeat constructor.
  - exists r. split; [ exact Hreq | ]. split; [ exact Hquery | ].
    rewrite Hquery. reflexivity.
Defined.

(** * Further properties of the dispatcher *)

Lemma append_empty (s : string) : s ++ "" = s.
Proof.
  induction s as [ | c s IH ]; cbn [append]; [ reflexivity | ].
  rewrite IH. reflexivity.
Qed.

Lemma split_first_absent (c : ascii) (s : string) :
  contains_char c s = false -> Aiohttp.split_first c s = (s, None).
Proof.
  induction s as [ | x s IH ]; cbn [Aiohttp.split_first contains_char];
    [ reflexivity | ].
  intros H. apply orb_false_iff in H. destruct H as [Hx Hs].
  rewrite Hx, (IH Hs). reflexivity.
Qed.

(** A request with a method other than GET never carries a query string
    and never passes [params]: the URL is the base URL and the path, and
    the parameters travel as the JSON text of the body, which is [null]
    when the caller gave none. *)
Theorem non_get_sends_json_body :
  forall self url method params is_file_download w,
    method <> "GET" ->
    requested (snd (_make_request self url method params is_file_download w)) =
      (requested w ++
       [mkRequest method (api_base_url self ++ url) (request_headers self)
          (Data (match params with
                 | None => "null"
                 | Some d => Json.dumps (PDict d)
                 end))])%list.
Proof.
  intros self url method params dl w Hmethod.
  rewrite make_request_requested. unfold request_of.
  apply String.eqb_neq in Hmethod. rewrite Hmethod. cbn [andb negb].
  destruct params; reflexivity.
Qed.

(** A DELETE without a body sends the text [null]. *)
Lemma non_get_sends_json_body_witness :
  requested (snd (_delete_request sample_client "projects/p/keys" None
                    (answering (Return (json_response 200 PNone))))) =
    [mkRequest "DELETE" "https://app.texterify.com/api/v1/projects/p/keys"
       (request_headers sample_client) (Data "null")].
Proof.
  apply (non_get_sends_json_body sample_client "projects/p/keys" "DELETE" None
           false (answering (Return (json_response 200 PNone)))).
  discriminate.
Defined.

(** A GET request whose parameters are [None] or the empty dict gets no
    query string at all: the URL is the base URL and the path, without a
    question mark, the parameters are passed on as they came, and the
    query aiohttp requests is empty. *)
Theorem get_without_params_has_no_query :
  forall self url params is_file_download w,
    params = None \/ params = Some [] ->
    contains_char "?" (api_base_url self ++ url) = false ->
    exists r,
      requested (snd (_make_request self url "GET" params is_file_download w)) =
        (requested w ++ [r])%list /\
      r = mkRequest "GET" (api_base_url self ++ url) (request_headers self)
            (Params (params_of params)) /\
      Aiohttp.final_query r = Some [].
Proof.
  intros self url params dl w Hparams Hurl.
  exists (request_of self url "GET" params).
  split; [ apply make_request_requested | ].
  assert (Hreq : request_of self url "GET" params =
                 mkRequest "GET" (api_base_url self ++ url) (request_headers self)
                   (Params (params_of params))).
  { destruct Hparams as [-> | ->]; reflexivity. }
  rewrite Hreq. split; [ reflexivity | ].
  unfold Aiohttp.final_query, Aiohttp.url_query; cbn [req_payload req_url].
  rewrite (split_first_absent _ _ Hurl). cbn [snd].
  destruct Hparams as [-> | ->]; reflexivity.
Qed.

(** [export_project] with the empty options dict. *)
Lemma get_without_params_has_no_query_witness :
  exists r,
    requested (snd (export_project sample_client "1" "cfg" []
                      (answering (Return (json_response 200 PNone))))) = [r] /\
    r = mkRequest "GET" "https://app.texterify.com/api/v1/projects/1/exports/cfg"
          (request_headers sample_client) (Params (ParamsDict [])) /\
    Aiohttp.final_query r = Some [].
Proof.
  apply (get_without_params_has_no_query sample_client "projects/1/exports/cfg"
           (Some []) true (answering (Return (json_response 200 PNone)))).
  - right. reflexivity.
  - reflexivity.
Defined.


(** An error outside [Exception], such as a cancellation, goes through
    the dispatcher without a log record, from the transport as from the
    decoder. *)
Theorem base_exception_not_logged :
  forall self url method params is_file_download w e,
    is_Exception e = false ->
    let run := _make_request self url method params is_file_download w in
    (network w (requested w) (request_of self url method params) = Raise e ->
     fst run = Raise e /\ logged (snd run) = logged w) /\
    (forall resp,
       network w (requested w) (request_of self url method params) = Return resp ->
       ok_status (status resp) = true -> is_file_download = false ->
       json resp = Raise e ->
       fst run = Raise e /\ logged (snd run) = logged w).
Proof.
  intros self url method params dl w e He run. subst run. split.
  - intros Hnet. rewrite make_request_unfold, Hnet.
    unfold after_except. rewrite He. split; reflexivity.
  - intros resp Hnet Hok -> Hjson.
    rewrite make_request_unfold, Hnet, Hok, Hjson.
    unfold after_except. rewrite He. split; reflexivity.
Qed.

(** A cancelled [get_projects()] leaves the log empty. *)
Lemma base_exception_not_logged_witness :
  let run := get_projects sample_client
               (answering (Raise (BaseError "CancelledError"))) in
  fst run = Raise (BaseError "CancelledError") /\ logged (snd run) = [].
Proof.
  exact (proj1 (base_exception_not_logged sample_client "projects" "GET" None false
                  (answering (Raise (BaseError "CancelledError")))
                  (BaseError "CancelledError") eq_refl) eq_refl).
Defined.

(** The dispatcher returns a value for a 200 or a 400 answer only, and a
    call that returns has logged nothing and made its one request. *)
Theorem returns_only_on_200_or_400 :
  forall self url method params is_file_download w v w1,
    _make_request self url method params is_file_download w = (Return v, w1) ->
    exists resp,
      network w (requested w) (request_of self url method params) = Return resp /\
      (status resp = 200 \/ status resp = 400) /\
      logged w1 = logged w /\
      requested w1 = (requested w ++ [request_of self url method params])%list.
Proof.
  intros self url method params dl w v w1 Hrun.
  apply make_request_returns in Hrun.
  destruct Hrun as [-> [resp [Hnet [Hok _]]]].
  exists resp. split; [ exact Hnet | ]. split.
  - unfold ok_status in Hok. apply orb_true_iff in Hok.
    destruct Hok as [H | H]; apply Z.eqb_eq in H; [ left | right ]; exact H.
  - split; reflexivity.
Qed.

Lemma returns_only_on_200_or_400_witness :
  exists resp,
    network (answering (Return (json_response 400 PNone))) []
      (request_of sample_client "projects" "GET" None) = Return resp /\
    (status resp = 200 \/ status resp = 400).
Proof.
  destruct (returns_only_on_200_or_400 sample_client "projects" "GET" None false
              (answering (Return (json_response 400 PNone)))
              (Json PNone)
              (request_append (request_of sample_client "projects" "GET" None)
                 (answering (Return (json_response 400 PNone))))
              eq_refl) as [resp [Hnet [Hst _]]].
  exists resp. split; [ exact Hnet | exact Hst ].
Defined.

(** A transport error and a decoder error, each logged once. *)
Lemma transport_error_logged_once_witness :
  let e := LibraryError "ClientConnectorError" "Cannot connect to host" in
  let run := get_projects sample_client (answering (Raise e)) in
  fst run = Raise e /\ logged (snd run) = [mkLog "Error:" [e]].
Proof.
  exact (transport_error_logged_once sample_client "projects" "GET" None false
           (answering (Raise (LibraryError "ClientConnectorError"
                                "Cannot connect to host")))
           (LibraryError "ClientConnectorError" "Cannot connect to host")
           eq_refl eq_refl).
Defined.

Lemma decode_error_logged_once_witness :
  let e := LibraryError "ContentTypeError" "unexpected mimetype: text/html" in
  let run := get_projects sample_client
               (answering (Return (mkResponse 200 (Raise e)))) in
  fst run = Raise e /\ logged (snd run) = [mkLog "Error:" [e]].
Proof.
  exact (decode_error_logged_once sample_client "projects" "GET" None
           (answering (Return (mkResponse 200
              (Raise (LibraryError "ContentTypeError"
                        "unexpected mimetype: text/html")))))
           (mkResponse 200
              (Raise (LibraryError "ContentTypeError"
                        "unexpected mimetype: text/html")))
           (LibraryError "ContentTypeError" "unexpected mimetype: text/html")
           eq_refl eq_refl eq_refl eq_refl).
Defined.

(** * Further properties of key creation *)

(** When the translation request answers with the error code
    ["NO_DEFAULT_LANGUAGE_SPECIFIED"], [create_key] logs its one
    diagnostic, raises nothing and returns the key response. *)
Theorem no_default_language_logged :
  forall self project_id name description default_language_translation w
         d w1 key_id answer w2,
    _post_request self ("projects/" ++ project_id ++ "/keys")
      (Some [("name", PStr name); ("description", PStr description)]) w
    = (Return (Json (PDict d)), w1) ->
    guard d default_language_translation = true ->
    key_id_of d = Return key_id ->
    create_translation self project_id key_id
      (optional_str default_language_translation) None w1
    = (Return (Json (PDict answer)), w2) ->
    dict_get answer "error" = PStr "NO_DEFAULT_LANGUAGE_SPECIFIED" ->
    let run := create_key self project_id name description
                 default_language_translation w in
    fst run = Return (Json (PDict d)) /\
    logged (snd run) = (logged w ++ [mkLog no_default_language_message []])%list.
Proof.
  intros self pid name desc dlt w d w1 key_id answer w2
         Hprimary Hguard Hid Hsecond Herror run. subst run.
  rewrite (create_key_unfold _ _ _ _ _ _ _ _ Hprimary), Hguard, Hid, Hsecond.
  cbn [py_get]. rewrite Herror. cbn [eq_str String.eqb Ascii.eqb Bool.eqb fst snd].
  split; [ reflexivity | ].
  unfold _post_request in Hprimary.
  unfold create_translation, _post_request in Hsecond.
  apply make_request_returns in Hprimary. destruct Hprimary as [-> _].
  apply make_request_returns in Hsecond. destruct Hsecond as [-> _].
  reflexivity.
Qed.

Lemma no_default_language_logged_witness :
  let w := answering_in_turn
             (Return (json_response 200 (PDict created_key)))
             (Return (json_response 400
                        (PDict [("error", PStr "NO_DEFAULT_LANGUAGE_SPECIFIED")]))) in
  let run := create_key sample_client "p" "name" "text" (Some "hello") w in
  fst run = Return (Json (PDict created_key)) /\
  logged (snd run) = [mkLog no_default_language_message []].
Proof.
  cbv zeta.
  refine (no_default_language_logged sample_client "p" "name" "text"
            (Some "hello")
            (answering_in_turn
               (Return (json_response 200 (PDict created_key)))
               (Return (json_response 400
                          (PDict [("error", PStr "NO_DEFAULT_LANGUAGE_SPECIFIED")]))))
            created_key _ (PStr "1")
            [("error", PStr "NO_DEFAULT_LANGUAGE_SPECIFIED")] _
            eq_refl eq_refl eq_refl eq_refl eq_refl).
Defined.

(** A key request that fails fails [create_key] with the same error and
    is the only request made: no translation is attempted. *)
Theorem create_key_primary_failure :
  forall self project_id name description default_language_translation w e w1,
    _post_request self ("projects/" ++ project_id ++ "/keys")
      (Some [("name", PStr name); ("description", PStr description)]) w
    = (Raise e, w1) ->
    create_key self project_id name description default_language_translation w
    = (Raise e, w1) /\
    requested w1 =
      (requested w ++ [key_request self project_id name description])%list.
Proof.
  intros self pid name desc dlt w e w1 Hprimary. split.
  - unfold create_key. unfold bind at 1. rewrite Hprimary. reflexivity.
  - unfold _post_request in Hprimary.
    pose proof (make_request_requested self ("projects/" ++ pid ++ "/keys")
                  "POST" (Some [("name", PStr name); ("description", PStr desc)])
                  false w) as H.
    cbv zeta in H. rewrite Hprimary in H. exact H.
Qed.

Lemma create_key_primary_failure_witness :
  let run := create_key sample_client "p" "name" "text" (Some "hello")
               (answering (Return (json_response 403 PNone))) in
  fst run = Raise (Exception ("Invalid response status received: 403" ++ newline)) /\
  requested (snd run) = [key_request sample_client "p" "name" "text"].
Proof.
  cbv zeta.
  destruct (create_key_primary_failure sample_client "p" "name" "text"
              (Some "hello") (answering (Return (json_response 403 PNone)))
              (Exception ("Invalid response status received: 403" ++ newline))
              (snd (_post_request sample_client "projects/p/keys"
                      (Some [("name", PStr "name"); ("description", PStr "text")])
                      (answering (Return (json_response 403 PNone)))))
              eq_refl) as [Hrun Hreq].
  rewrite Hrun. split; [ reflexivity | exact Hreq ].
Defined.

(** A translation request that fails fails [create_key] with that error,
    although the key request succeeded: the key response is not
    returned. *)
Theorem create_key_secondary_failure :
  forall self project_id name description default_language_translation w
         d w1 key_id e w2,
    _post_request self ("projects/" ++ project_id ++ "/keys")
      (Some [("name", PStr name); ("description", PStr description)]) w
    = (Return (Json (PDict d)), w1) ->
    guard d default_language_translation = true ->
    key_id_of d = Return key_id ->
    create_translation self project_id key_id
      (optional_str default_language_translation) None w1
    = (Raise e, w2) ->
    create_key self project_id name description default_language_translation w
    = (Raise e, w2).
Proof.
  intros self pid name desc dlt w d w1 key_id e w2 Hprimary Hguard Hid Hsecond.
  rewrite (create_key_unfold _ _ _ _ _ _ _ _ Hprimary), Hguard, Hid, Hsecond.
  reflexivity.
Qed.

Lemma create_key_secondary_failure_witness :
  fst (create_key sample_client "p" "name" "text" (Some "hello")
         (answering_in_turn
            (Return (json_response 200 (PDict created_key)))
            (Return (json_response 500 PNone))))
  = Raise (Exception ("Invalid response status received: 500" ++ newline)).
Proof.
  refine (f_equal fst
            (create_key_secondary_failure sample_client "p" "name" "text"
               (Some "hello")
               (answering_in_turn
                  (Return (json_response 200 (PDict created_key)))
                  (Return (json_response 500 PNone)))
               created_key _ (PStr "1")
               (Exception ("Invalid response status received: 500" ++ newline))
               (snd (create_key sample_client "p" "name" "text" (Some "hello")
                       (answering_in_turn
                          (Return (json_response 200 (PDict created_key)))
                          (Return (json_response 500 PNone)))))
               eq_refl eq_refl eq_refl eq_refl)).
Defined.

(** A key response that is JSON but not an object (a list, a string, a
    number, [null]) makes [create_key] raise an [AttributeError] after
    the key request, whatever the other arguments are. *)
Theorem create_key_non_dict_response :
  forall self project_id name description default_language_translation w v w1,
    _post_request self ("projects/" ++ project_id ++ "/keys")
      (Some [("name", PStr name); ("description", PStr description)]) w
    = (Return (Json v), w1) ->
    (forall d, v <> PDict d) ->
    create_key self project_id name description default_language_translation w
    = (Raise (AttributeError (type_name v) "get"), w1).
Proof.
  intros self pid name desc dlt w v w1 Hprimary Hv.
  unfold create_key. unfold bind at 1. rewrite Hprimary.
  unfold bind, lift. cbn [py_get].
  destruct v as [ | b | z | s | l | d ]; try reflexivity.
  exfalso. apply (Hv d). reflexivity.
Qed.

Lemma create_key_non_dict_response_witness :
  fst (create_key sample_client "p" "name" "text" None
         (answering (Return (json_response 200 (PList [])))))
  = Raise (AttributeError "list" "get").
Proof.
  refine (f_equal fst
            (create_key_non_dict_response sample_client "p" "name" "text" None
               (answering (Return (json_response 200 (PList []))))
               (PList []) _ eq_refl _)).
  intros d; discriminate.
Defined.

(** The requests of [create_key], in every case. *)
Lemma create_key_trace :
  forall self project_id name description default_language_translation w,
    let run := create_key self project_id name description
                 default_language_translation w in
    requested (snd run) =
      (requested w ++ [key_request self project_id name description])%list \/
    exists key_id,
      requested (snd run) =
        (requested w ++
         [key_request self project_id name description;
          translation_request self project_id key_id
            (optional_str default_language_translation) None])%list.
Proof.
  intros self pid name desc dlt w run. subst run.
  pose proof (make_request_requested self ("projects/" ++ pid ++ "/keys")
                "POST" (Some [("name", PStr name); ("description", PStr desc)])
                false w) as Hw1.
  cbv zeta in Hw1.
  destruct (_post_request self ("projects/" ++ pid ++ "/keys")
              (Some [("name", PStr name); ("description", PStr desc)]) w)
    as [[v | e] w1] eqn:Hprimary;
    unfold _post_request in Hprimary; rewrite Hprimary in Hw1; cbn [snd] in Hw1;
    fold (_post_request self ("projects/" ++ pid ++ "/keys")
            (Some [("name", PStr name); ("description", PStr desc)])) in Hprimary.
  - destruct v as [[ | b | z | s | l | d ] | resp];
      try (left; unfold create_key; unfold bind at 1; rewrite Hprimary;
           exact Hw1).
    rewrite (create_key_unfold _ _ _ _ _ _ _ _ Hprimary).
    destruct (guard d dlt); [ | left; exact Hw1 ].
    destruct (key_id_of d) as [key_id | e]; [ | left; exact Hw1 ].
    right. exists key_id.
    pose proof (make_request_requested self
                  ("projects/" ++ pid ++ "/translations") "POST"
                  (Some [("language_id", optional_str None);
                         ("key_id", key_id);
                         ("translation", PDict [("content", optional_str dlt)])])
                  false w1) as Hw2.
    cbv zeta in Hw2. unfold create_translation, _post_request.
    destruct (_make_request self ("projects/" ++ pid ++ "/translations") "POST" _
                false w1) as [[answer | e] w2]; cbn [snd] in Hw2.
    + assert (Hreq : requested w2 =
                (requested w ++
                 [key_request self pid name desc;
                  translation_request self pid key_id (optional_str dlt) None])%list).
      { rewrite Hw2, Hw1, <- app_assoc. reflexivity. }
      destruct (py_get answer "error") as [error | e]; cbn [snd];
        [ destruct (eq_str error "NO_DEFAULT_LANGUAGE_SPECIFIED") | ];
        exact Hreq.
    + cbn [snd]. rewrite Hw2, Hw1, <- app_assoc. reflexivity.
  - left. unfold create_key. unfold bind at 1. rewrite Hprimary. exact Hw1.
Qed.

(** Whatever the arguments and whatever the remote side answers,
    [create_key] makes the key request first and at most one more
    request, which is then a translation request of the same project
    with the given translation as content and no language id. *)
Theorem create_key_at_most_two_requests :
  forall self project_id name description default_language_translation w,
    exists rest,
      requested (snd (create_key self project_id name description
                        default_language_translation w)) =
        (requested w ++ key_request self project_id name description :: rest)%list /\
      (List.length rest <= 1)%nat /\
      (forall r, In r rest ->
         exists key_id,
           r = translation_request self project_id key_id
                 (optional_str default_language_translation) None).
Proof.
  intros self pid name desc dlt w.
  destruct (create_key_trace self pid name desc dlt w) as [H | [key_id H]].
  - exists []. split; [ exact H | ]. split; [ cbn; lia | ].
    intros r [].
  - exists [translation_request self pid key_id (optional_str dlt) None].
    split; [ exact H | ]. split; [ cbn; lia | ].
    intros r [<- | []]. exists key_id. reflexivity.
Qed.

(** * Further properties of the operations *)

(** A [search] argument that is falsy in any way ([None], the empty
    string, [0], [False], an empty list or dict) is sent as the empty
    string, never as its own text. *)
Theorem get_languages_falsy_search :
  forall self project_id page per_page search w,
    truthy search = false ->
    requested (snd (get_languages self project_id page per_page search w)) =
      (requested w ++
       [mkRequest "GET"
          ((api_base_url self ++ "projects/" ++ project_id ++ "/languages")
           ++ "?page=" ++ str_of_int (or_default 1 page)
           ++ "&per_page=" ++ str_of_int (or_default 10 per_page)
           ++ "&search=")
          (request_headers self)
          (Params (ParamsPairs
             [("page", PInt (or_default 1 page));
              ("per_page", PInt (or_default 10 per_page));
              ("search", PStr "")]))])%list.
Proof.
  intros self pid page per_page search w Hsearch.
  unfold get_languages, _get_request. rewrite Hsearch.
  rewrite make_request_requested, request_of_get by discriminate.
  do 2 f_equal. f_equal. f_equal.
  cbn [map join]. unfold spec_query_item; cbn [fst snd str repr].
  rewrite !quote_plus_int. reflexivity.
Qed.

Lemma get_languages_falsy_search_witness :
  requested (snd (get_languages sample_client "p" None (Some 5) (PInt 0)
                    (answering (Return (json_response 200 PNone))))) =
    [mkRequest "GET"
       "https://app.texterify.com/api/v1/projects/p/languages?page=1&per_page=5&search="
       (request_headers sample_client)
       (Params (ParamsPairs
          [("page", PInt 1); ("per_page", PInt 5); ("search", PStr "")]))].
Proof.
  exact (get_languages_falsy_search sample_client "p" None (Some 5) (PInt 0)
           (answering (Return (json_response 200 PNone))) eq_refl).
Defined.

(** The query string the dispatcher writes into the URL of a GET request
    decodes back to the parameters, one pair each and in order, with
    booleans as lowercase words: a key or value holding [&], [=], [+],
    [%] or a space comes back as it was and adds no parameter. *)
Theorem get_query_decodes_to_params :
  forall self url d is_file_download w,
    d <> [] ->
    contains_char "?" (api_base_url self ++ url) = false ->
    exists r,
      requested (snd (_make_request self url "GET" (Some d) is_file_download w)) =
        (requested w ++ [r])%list /\
      Aiohttp.url_query (req_url r) = map query_pair d.
Proof.
  intros self url d dl w Hd Hurl.
  exists (request_of self url "GET" (Some d)).
  split; [ apply make_request_requested | ].
  rewrite (request_of_get self url d Hd), <- urlencode_flatten. cbn [req_url].
  rewrite url_query_urlencode.
  - unfold flatten; cbn [items]. rewrite map_map. reflexivity.
  - unfold flatten; cbn [items]. destruct d; [ contradiction | discriminate ].
  - exact Hurl.
Qed.

Lemma get_query_decodes_to_params_witness :
  exists r,
    requested (snd (get_languages sample_client "p" None None (PStr "a&b=c d+%")
                      (answering (Return (json_response 200 PNone))))) = [r] /\
    Aiohttp.url_query (req_url r) =
      [("page", "1"); ("per_page", "10"); ("search", "a&b=c d+%")].
Proof.
  apply (get_query_decodes_to_params sample_client "projects/p/languages"
           [("page", PInt 1); ("per_page", PInt 10); ("search", PStr "a&b=c d+%")]
           false (answering (Return (json_response 200 PNone)))).
  - discriminate.
  - reflexivity.
Defined.

Lemma make_request_result_kind :
  forall self url method params is_file_download w v,
    fst (_make_request self url method params is_file_download w) = Return v ->
    if is_file_download then raw v else decoded v.
Proof.
  intros self url method params dl w v Hv.
  destruct (_make_request self url method params dl w) as [o w1] eqn:Hrun.
  cbn [fst] in Hv. subst o.
  apply make_request_returns in Hrun.
  destruct Hrun as [_ [resp [_ [_ Hkind]]]].
  destruct dl.
  - exists resp. exact Hkind.
  - destruct Hkind as [body [_ ->]]. exists body. reflexivity.
Qed.

(** What an operation returns, when it returns: [export_project] gives
    the response object and never a decoded value; each of the other ten
    operations gives a decoded JSON value and never a response object. *)
Theorem result_kinds :
  forall self w v,
    (forall project_id export_config_id options,
       fst (export_project self project_id export_config_id options w) = Return v ->
       raw v) /\
    (forall project_id page per_page cs ohe ou owo,
       fst (get_keys self project_id page per_page cs ohe ou owo w) = Return v ->
       decoded v) /\
    (forall project_id name description translation,
       fst (create_key self project_id name description translation w) = Return v ->
       decoded v) /\
    (forall project_id key_id name description,
       fst (update_key self project_id key_id name description w) = Return v ->
       decoded v) /\
    (forall project_id keys,
       fst (delete_keys self project_id keys w) = Return v -> decoded v) /\
    (fst (get_projects self w) = Return v -> decoded v) /\
    (forall project_id,
       fst (get_project self project_id w) = Return v -> decoded v) /\
    (forall name description,
       fst (create_project self name description w) = Return v -> decoded v) /\
    (forall name description,
       fst (update_project self name description w) = Return v -> decoded v) /\
    (forall project_id language_id file_path,
       fst (import_project self project_id language_id file_path w) = Return v ->
       decoded v) /\
    (forall project_id key_id content language_id,
       fst (create_translation self project_id key_id content language_id w)
       = Return v -> decoded v) /\
    (forall project_id page per_page search,
       fst (get_languages self project_id page per_page search w) = Return v ->
       decoded v).
Proof.
  intros self w v.
  repeat match goal with |- _ /\ _ => split end; intros;
    match goal with H : fst _ = Return v |- _ => rename H into Hv end;
    try (unfold export_project, get_keys, update_key, delete_keys, get_projects,
           get_project, create_project, update_project, create_translation,
           get_languages, _get_request, _post_request, _put_request,
           _delete_request in Hv;
         apply make_request_result_kind in Hv; exact Hv).
  - unfold create_key in Hv.
    apply bind_returns in Hv. destruct Hv as (new_key & w1 & Hprimary & Hv).
    apply bind_returns in Hv. destruct Hv as (error & w1' & _ & Hv).
    apply bind_returns in Hv. destruct Hv as (u & w2 & _ & Hv).
    unfold ret in Hv. cbn [fst] in Hv. inversion Hv; subst.
    apply (make_request_result_kind self ("projects/" ++ project_id ++ "/keys")
             "POST" (Some [("name", PStr name); ("description", PStr description)])
             false w).
    unfold _post_request in Hprimary. rewrite Hprimary. reflexivity.
  - unfold import_project in Hv.
    apply bind_returns in Hv. destruct Hv as (file_bytes & w1 & _ & Hv).
    unfold _post_request in Hv.
    apply make_request_result_kind in Hv. exact Hv.
Qed.

(** The requests of the four write operations on keys and projects:
    [update_key] is a PUT to the key's own URL, [delete_keys] a DELETE
    that carries its list of keys in a JSON body, and [create_project]
    and [update_project] send the same body to the same URL, which names
    no project, as a POST and as a PUT. *)
Theorem write_operations_requests :
  forall self project_id key_id name description keys w,
    requested (snd (update_key self project_id key_id name description w)) =
      (requested w ++
       [mkRequest "PUT"
          (api_base_url self ++ "projects/" ++ project_id ++ "/keys/" ++ key_id)
          (request_headers self)
          (Data ("{" ++ quoted "name" ++ ": " ++ Json.dumps_str name ++ ", "
                 ++ quoted "description" ++ ": " ++ Json.dumps_str description
                 ++ "}"))])%list /\
    requested (snd (delete_keys self project_id keys w)) =
      (requested w ++
       [mkRequest "DELETE"
          (api_base_url self ++ "projects/" ++ project_id ++ "/keys")
          (request_headers self)
          (Data ("{" ++ quoted "keys" ++ ": " ++ Json.dumps keys ++ "}"))])%list /\
    (let body :=
       "{" ++ quoted "project" ++ ": {"
       ++ quoted "name" ++ ": " ++ Json.dumps_str name ++ ", "
       ++ quoted "description" ++ ": " ++ Json.dumps_str description ++ "}}" in
     requested (snd (create_project self name description w)) =
       (requested w ++
        [mkRequest "POST" (api_base_url self ++ "projects")
           (request_headers self) (Data body)])%list /\
     requested (snd (update_project self name description w)) =
       (requested w ++
        [mkRequest "PUT" (api_base_url self ++ "projects")
           (request_headers self) (Data body)])%list).
Proof.
  intros self pid kid name desc keys w.
  unfold update_key, delete_keys, create_project, update_project,
    _put_request, _post_request, _delete_request.
  rewrite !make_request_requested.
  unfold request_of; cbn [String.eqb Ascii.eqb Bool.eqb andb negb params_of
                            dumps_params Json.dumps map join fst snd].
  repeat split; do 3 f_equal; rewrite ?append_assoc; reflexivity.
Qed.

(** * The uploaded file *)

Section Base64RoundTrip.

Import Base64.

Lemma list_ind3 {A} (P : list A -> Prop) :
  P [] -> (forall a, P [a]) -> (forall a b, P [a; b]) ->
  (forall a b c l, P l -> P (a :: b :: c :: l)) ->
  forall l, P l.
Proof.
  intros H0 H1 H2 H3 l.
  assert (H : P l /\ (forall a, P (a :: l)) /\ (forall a b, P (a :: b :: l))).
  { induction l as [ | x l [IH0 [IH1 IH2]] ].
    - split; [ exact H0 | ]. split; [ exact H1 | exact H2 ].
    - split; [ apply IH1 | ]. split; [ intros a; apply IH2 | ].
      intros a b. apply H3. exact IH0. }
  exact (proj1 H).
Qed.

(** A property of the numbers below 64, checked on each of them. *)
Lemma below_64 (P : N -> Prop) :
  (forall k, In k (map N.of_nat (seq 0 64)) -> P k) ->
  forall m, (m < 64)%N -> P m.
Proof.
  intros H m Hm. apply H. apply in_map_iff. exists (N.to_nat m).
  split; [ apply N2Nat.id | ]. apply in_seq. lia.
Qed.

Lemma sextet_facts (m : N) :
  (m < 64)%N ->
  sextet_index (sextet m) = m /\
  (sextet m =? "=")%char = false /\
  json_plain (sextet m) = true.
Proof.
  revert m. apply below_64. cbn [map seq N.of_nat]. intros k H.
  repeat (destruct H as [<- | H]; [ repeat split; reflexivity | ]).
  destruct H.
Qed.

Lemma sextet_mod (n : N) : sextet n = sextet (n mod 64).
Proof.
  unfold sextet. rewrite N.Div0.mod_mod. reflexivity.
Qed.

Lemma sextet_index_sextet (n : N) : sextet_index (sextet n) = (n mod 64)%N.
Proof.
  rewrite sextet_mod. apply sextet_facts. apply N.mod_lt. discriminate.
Qed.

Lemma sextet_not_padding (n : N) : (sextet n =? "=")%char = false.
Proof.
  rewrite sextet_mod. apply sextet_facts. apply N.mod_lt. discriminate.
Qed.

Lemma sextet_plain (n : N) : json_plain (sextet n) = true.
Proof.
  rewrite sextet_mod. apply sextet_facts. apply N.mod_lt. discriminate.
Qed.

(** The four sextets of a group of three bytes hold the bytes. *)
Lemma recombine (n : N) :
  (n < 16777216)%N ->
  ((n / 262144 mod 64) * 262144 + (n / 4096 mod 64) * 4096
   + (n / 64 mod 64) * 64 + n mod 64 = n)%N.
Proof.
  intros Hn. zify. Z.to_euclidean_division_equations. lia.
Qed.

Lemma split_three (a b c : N) :
  (a <= 255)%N -> (b <= 255)%N -> (c <= 255)%N ->
  let n := (a * 65536 + b * 256 + c)%N in
  (n < 16777216 /\ n / 65536 = a /\ n / 256 mod 256 = b /\ n mod 256 = c)%N.
Proof.
  intros Ha Hb Hc n. subst n.
  zify. Z.to_euclidean_division_equations. lia.
Qed.

Lemma low_sextets_two (a b : N) :
  (((a * 65536 + b * 256) mod 64 = 0))%N.
Proof.
  zify. Z.to_euclidean_division_equations. lia.
Qed.

Lemma low_sextets_one (a : N) :
  ((a * 65536) / 64 mod 64 = 0 /\ (a * 65536) mod 64 = 0)%N.
Proof.
  zify. Z.to_euclidean_division_equations. lia.
Qed.

Lemma byte_of_to_N (b : byte) : byte_of (Byte.to_N b) = b.
Proof.
  unfold byte_of. rewrite Byte.of_to_N. reflexivity.
Qed.

(** Decoding gives back the bytes that were encoded. *)
Lemma b64decode_b64encode (data : list byte) :
  b64decode (b64encode data) = data.
Proof.
  induction data as [ | a | a b | a b c rest IH ] using list_ind3.
  - reflexivity.
  - cbn [b64encode b64decode]. rewrite Ascii.eqb_refl.
    rewrite !sextet_index_sextet.
    change (sextet_index "=") with 0%N.
    pose proof (Byte.to_N_bounded a) as Ha.
    destruct (split_three (Byte.to_N a) 0 0 Ha) as [Hn [H1 _]]; try discriminate.
    rewrite !N.add_0_r in Hn, H1.
    pose proof (recombine _ Hn) as Hr.
    destruct (low_sextets_one (Byte.to_N a)) as [H3 H4].
    rewrite H3, H4 in Hr. rewrite Hr, H1, byte_of_to_N. reflexivity.
  - cbn [b64encode b64decode]. rewrite sextet_not_padding, Ascii.eqb_refl.
    rewrite !sextet_index_sextet.
    change (sextet_index "=") with 0%N.
    pose proof (Byte.to_N_bounded a) as Ha.
    pose proof (Byte.to_N_bounded b) as Hb.
    destruct (split_three (Byte.to_N a) (Byte.to_N b) 0 Ha Hb)
      as [Hn [H1 [H2 _]]]; try discriminate.
    rewrite !N.add_0_r in Hn, H1, H2.
    pose proof (recombine _ Hn) as Hr.
    rewrite (low_sextets_two (Byte.to_N a) (Byte.to_N b)) in Hr.
    rewrite Hr, H1, H2, !byte_of_to_N. reflexivity.
  - cbn [b64encode b64decode]. rewrite !sextet_not_padding.
    rewrite !sextet_index_sextet.
    pose proof (Byte.to_N_bounded a) as Ha.
    pose proof (Byte.to_N_bounded b) as Hb.
    pose proof (Byte.to_N_bounded c) as Hc.
    destruct (split_three (Byte.to_N a) (Byte.to_N b) (Byte.to_N c) Ha Hb Hc)
      as [Hn [H1 [H2 H3]]].
    rewrite (recombine _ Hn), H1, H2, H3, !byte_of_to_N, IH. reflexivity.
Qed.

Lemma sextet_rfc4648_below (m : N) :
  (m < 64)%N -> sextet m = rfc4648_char m.
Proof.
  revert m. apply below_64. cbn [map seq N.of_nat]. intros k H.
  repeat (destruct H as [<- | H]; [ reflexivity | ]).
  destruct H.
Qed.

Lemma sextet_rfc4648 (n : N) : sextet n = rfc4648_char (n mod 64).
Proof.
  rewrite sextet_mod. apply sextet_rfc4648_below. apply N.mod_lt. discriminate.
Qed.

(** The four groups of 6 bits of three bytes. *)
Lemma six_bit_groups (x y z : N) :
  (x <= 255)%N -> (y <= 255)%N -> (z <= 255)%N ->
  let n := (x * 65536 + y * 256 + z)%N in
  ((n / 262144) mod 64 = x / 4 /\
   (n / 4096) mod 64 = (x mod 4) * 16 + y / 16 /\
   (n / 64) mod 64 = (y mod 16) * 4 + z / 64 /\
   n mod 64 = z mod 64)%N.
Proof.
  intros Hx Hy Hz n. subst n.
  repeat split; zify; Z.to_euclidean_division_equations; lia.
Qed.

(** The encoder the client calls computes the encoding of RFC 4648. *)
Lemma b64encode_rfc4648 (data : list byte) :
  b64encode data = rfc4648_encode data.
Proof.
  induction data as [ | a | a b | a b c rest IH ] using list_ind3.
  - reflexivity.
  - cbn [b64encode rfc4648_encode]. rewrite !sextet_rfc4648.
    pose proof (Byte.to_N_bounded a) as Ha.
    destruct (six_bit_groups (Byte.to_N a) 0 0 Ha) as [H1 [H2 _]];
      try discriminate.
    rewrite !N.add_0_r in H1, H2.
    change (0 / 16)%N with 0%N in H2. rewrite N.add_0_r in H2.
    rewrite H1, H2. reflexivity.
  - cbn [b64encode rfc4648_encode]. rewrite !sextet_rfc4648.
    pose proof (Byte.to_N_bounded a) as Ha.
    pose proof (Byte.to_N_bounded b) as Hb.
    destruct (six_bit_groups (Byte.to_N a) (Byte.to_N b) 0 Ha Hb)
      as [H1 [H2 [H3 _]]]; try discriminate.
    rewrite !N.add_0_r in H1, H2, H3.
    change (0 / 64)%N with 0%N in H3. rewrite N.add_0_r in H3.
    rewrite H1, H2, H3. reflexivity.
  - cbn [b64encode rfc4648_encode]. rewrite !sextet_rfc4648.
    pose proof (Byte.to_N_bounded a) as Ha.
    pose proof (Byte.to_N_bounded b) as Hb.
    pose proof (Byte.to_N_bounded c) as Hc.
    destruct (six_bit_groups (Byte.to_N a) (Byte.to_N b) (Byte.to_N c) Ha Hb Hc)
      as [H1 [H2 [H3 H4]]].
    rewrite H1, H2, H3, H4, IH. reflexivity.
Qed.

End Base64RoundTrip.

Lemma concat_cons (x : string) (l : list string) :
  String.concat "" (x :: l) = x ++ String.concat "" l.
Proof.
  destruct l as [ | y l ]; cbn [String.concat].
  - rewrite append_empty. reflexivity.
  - reflexivity.
Qed.

Lemma plain_char (a : ascii) (s : string) :
  json_plain a = true ->
  Json.code_points (String a s) = N_of_ascii a :: Json.code_points s /\
  Json.escape_code_point (N_of_ascii a) = String a "".
Proof.
  destruct a as [[] [] [] [] [] [] [] []]; intros H; vm_compute in H;
    try discriminate H; split; reflexivity.
Qed.

(** A text of plain characters is written by [json.dumps] between
    double quotes, with no escape. *)
Lemma dumps_str_plain (s : string) :
  all_chars json_plain s = true -> Json.dumps_str s = quoted s.
Proof.
  intros Hs. unfold Json.dumps_str, quoted. cbn [append]. do 2 f_equal.
  induction s as [ | a s IH ]; [ reflexivity | ].
  cbn [all_chars] in Hs. apply andb_true_iff in Hs. destruct Hs as [Ha Hs].
  destruct (plain_char a s Ha) as [-> Hescape].
  cbn [map]. rewrite concat_cons, Hescape, (IH Hs). reflexivity.
Qed.

Lemma b64encode_plain (data : list byte) :
  all_chars json_plain (Base64.b64encode data) = true.
Proof.
  induction data as [ | a | a b | a b c rest IH ] using list_ind3;
    cbn [Base64.b64encode all_chars]; rewrite ?sextet_plain, ?IH; reflexivity.
Qed.

(** The upload of [import_project] loses nothing.  The [file] field of
    the body is the base64 text of the file between double quotes, with
    no character escaped; decoding that text gives the bytes of the file
    back, and no other content gives the same text. *)
Theorem import_project_upload_is_lossless :
  forall self project_id language_id file_path w content,
    files w file_path = Return content ->
    requested (snd (import_project self project_id language_id file_path w)) =
      (requested w ++
       [mkRequest "POST"
          (api_base_url self ++ "projects/" ++ project_id ++ "/import")
          (request_headers self)
          (Data ("{" ++ quoted "language_id" ++ ": "
                 ++ Json.dumps_str language_id ++ ", "
                 ++ quoted "file" ++ ": "
                 ++ quoted (Base64.b64encode content) ++ "}"))])%list /\
    b64decode (Base64.b64encode content) = content /\
    (forall other,
       Base64.b64encode other = Base64.b64encode content -> other = content).
Proof.
  intros self pid lang path w content Hfile. split; [ | split ].
  - assert (Hrun : import_project self pid lang path w =
                   _post_request self ("projects/" ++ pid ++ "/import")
                     (Some [("language_id", PStr lang);
                            ("file", PStr (Base64.b64encode content))]) w).
    { unfold import_project, bind, read_binary. rewrite Hfile. reflexivity. }
    rewrite Hrun. unfold _post_request.
    rewrite make_request_requested, request_of_post.
    do 3 f_equal. cbn [Json.dumps map join fst snd].
    rewrite (dumps_str_plain _ (b64encode_plain content)).
    rewrite !append_assoc. reflexivity.
  - apply b64decode_b64encode.
  - intros other Hsame.
    rewrite <- (b64decode_b64encode other), Hsame.
    apply b64decode_b64encode.
Qed.

Lemma import_project_upload_is_lossless_witness :
  let content := list_byte_of_string "file content" in
  b64decode (Base64.b64encode content) = content /\
  b64decode "ZmlsZSBjb250ZW50" = content.
Proof.
  cbv zeta. split.
  - exact (proj1 (proj2 (import_project_upload_is_lossless sample_client "proj"
                           "lang" "path"
                           (with_file "path" (list_byte_of_string "file content")
                              (Return (json_response 200 (PDict []))))
                           (list_byte_of_string "file content") eq_refl))).
  - reflexivity.
Defined.

(** * The log *)

(** One call of the dispatcher keeps every earlier log record and adds
    at most two, none when it returns; a call that raises an error that
    [except Exception] catches adds at least the record of that clause,
    which carries the error raised. *)
Theorem dispatcher_log_growth :
  forall self url method params is_file_download w,
    let run := _make_request self url method params is_file_download w in
    exists added,
      logged (snd run) = (logged w ++ added)%list /\
      (List.length added <= 2)%nat /\
      (forall v, fst run = Return v -> added = []) /\
      (forall e, fst run = Raise e -> is_Exception e = true ->
         exists before, added = (before ++ [mkLog "Error:" [e]])%list).
Proof.
  intros self url method params dl w run. subst run.
  rewrite make_request_unfold.
  set (r := request_of self url method params).
  assert (Hraise : forall e,
            exists added,
              logged (after_except e (request_append r w)) = (logged w ++ added)%list /\
              (List.length added <= 2)%nat /\
              (forall v, @Raise pyobj e = Return v -> added = []) /\
              (forall e', @Raise pyobj e = Raise e' -> is_Exception e' = true ->
                 exists before, added = (before ++ [mkLog "Error:" [e']])%list)).
  { intros e. unfold after_except. destruct (is_Exception e) eqn:He.
    - exists [except_log e]. split; [ reflexivity | ]. split; [ cbn; lia | ].
      split; [ discriminate | ].
      intros e' He' _. inversion He'; subst. exists []. reflexivity.
    - exists []. split; [ cbn; rewrite app_nil_r; reflexivity | ].
      split; [ cbn; lia | ]. split; [ reflexivity | ].
      intros e' He' Hcaught. inversion He'; subst. congruence. }
  assert (Hreturn : forall v : pyobj,
            exists added,
              logged (request_append r w) = (logged w ++ added)%list /\
              (List.length added <= 2)%nat /\
              (forall v', Return v = Return v' -> added = []) /\
              (forall e', Return v = Raise e' -> is_Exception e' = true ->
                 exists before, added = (before ++ [mkLog "Error:" [e']])%list)).
  { intros v. exists []. split; [ cbn; rewrite app_nil_r; reflexivity | ].
    split; [ cbn; lia | ]. split; [ reflexivity | discriminate ]. }
  destruct (network w (requested w) r) as [resp | e]; cbn [fst snd];
    [ | apply Hraise ].
  destruct (ok_status (status resp)); cbn [fst snd].
  - destruct dl; cbn [fst snd]; [ apply Hreturn | ].
    destruct (json resp) as [body | e]; cbn [fst snd];
      [ apply Hreturn | apply Hraise ].
  - exists [status_log (status resp); except_log (status_error (status resp))].
    split.
    + unfold log_append, request_append; cbn [logged].
      rewrite <- app_assoc. reflexivity.
    + split; [ cbn; lia | ]. split; [ discriminate | ].
      intros e' He' _. inversion He'; subst.
      exists [status_log (status resp)]. reflexivity.
Qed.

(** A 500 answer adds two records, the second with the error raised. *)
Lemma dispatcher_log_growth_witness :
  exists added,
    logged (snd (get_projects sample_client
                   (answering (Return (json_response 500 PNone))))) = added /\
    (List.length added <= 2)%nat.
Proof.
  destruct (dispatcher_log_growth sample_client "projects" "GET" None false
              (answering (Return (json_response 500 PNone))))
    as [added [Hlog [Hlen _]]].
  exists added. split; [ exact Hlog | exact Hlen ].
Defined.

(** An export that returns gives a response object. *)
Lemma result_kinds_witness :
  raw (Handle (json_response 200 PNone)).
Proof.
  exact (proj1 (result_kinds sample_client
                  (answering (Return (json_response 200 PNone)))
                  (Handle (json_response 200 PNone)))
           "1" "cfg" [] eq_refl).
Defined.

(** * The import payload *)

(** C5. [import_project] reads the whole file first; its request is the
    POST of [{"language_id": language_id, "file": <base64 text>}] to the
    import URL, where the text is the encoding of RFC 4648 of the bytes
    of the file, whatever they are, and decodes back to them; for the
    bytes of [file content] the text is [ZmlsZSBjb250ZW50].  When the
    file cannot be read the error of the read is the outcome and the
    world is untouched: no request, no log. *)
Theorem import_project_payload :
  forall self project_id language_id file_path w,
    (forall content, files w file_path = Return content ->
       import_project self project_id language_id file_path w =
         _post_request self ("projects/" ++ project_id ++ "/import")
           (Some [("language_id", PStr language_id);
                  ("file", PStr (rfc4648_encode content))]) w /\
       requested (snd (import_project self project_id language_id file_path w)) =
         (requested w ++
          [mkRequest "POST"
             (api_base_url self ++ "projects/" ++ project_id ++ "/import")
             (request_headers self)
             (Data (Json.dumps
                      (PDict [("language_id", PStr language_id);
                              ("file", PStr (rfc4648_encode content))])))])%list /\
       b64decode (rfc4648_encode content) = content)
    /\
    (forall e, files w file_path = Raise e ->
       import_project self project_id language_id file_path w = (Raise e, w))
    /\
    rfc4648_encode (list_byte_of_string "file content") = "ZmlsZSBjb250ZW50".
Proof.
  intros self pid lang path w. split; [ | split ].
  - intros content Hfile.
    assert (Hrun : import_project self pid lang path w =
                   _post_request self ("projects/" ++ pid ++ "/import")
                     (Some [("language_id", PStr lang);
                            ("file", PStr (rfc4648_encode content))]) w).
    { unfold import_project, bind, read_binary. rewrite Hfile.
      rewrite b64encode_rfc4648. reflexivity. }
    split; [ exact Hrun | ]. split.
    + rewrite Hrun. unfold _post_request.
      rewrite make_request_requested, request_of_post. reflexivity.
    + rewrite <- b64encode_rfc4648. apply b64decode_b64encode.
  - intros e Hfile. unfold import_project, bind, read_binary.
    rewrite Hfile. reflexivity.
  - reflexivity.
Qed.

(** [import_project("proj", "lang", "path")] with the file holding
    [file content], with a file of three other bytes, and with no file
    at all. *)
Lemma import_project_payload_witness :
  let answer := Return (json_response 200 (PDict [])) in
  requested (snd (import_project sample_client "proj" "lang" "path"
                    (with_file "path" (list_byte_of_string "file content")
                       answer))) =
    [mkRequest "POST" "https://app.texterify.com/api/v1/projects/proj/import"
       (request_headers sample_client)
       (Data ("{" ++ quoted "language_id" ++ ": " ++ quoted "lang" ++ ", "
              ++ quoted "file" ++ ": " ++ quoted "ZmlsZSBjb250ZW50" ++ "}"))]
  /\
  requested (snd (import_project sample_client "proj" "lang" "path"
                    (with_file "path" [x00; xff; x10] answer))) =
    [mkRequest "POST" "https://app.texterify.com/api/v1/projects/proj/import"
       (request_headers sample_client)
       (Data ("{" ++ quoted "language_id" ++ ": " ++ quoted "lang" ++ ", "
              ++ quoted "file" ++ ": " ++ quoted "AP8Q" ++ "}"))]
  /\
  import_project sample_client "proj" "lang" "path" (answering answer)
  = (Raise (LibraryError "FileNotFoundError" "No such file or directory"),
     answering answer).
Proof.
  cbv zeta. split; [ | split ].
  - exact (proj1 (proj2 (proj1 (import_project_payload sample_client "proj"
                                  "lang" "path"
                                  (with_file "path"
                                     (list_byte_of_string "file content")
                                     (Return (json_response 200 (PDict [])))))
                           (list_byte_of_string "file content") eq_refl))).
  - exact (proj1 (proj2 (proj1 (import_project_payload sample_client "proj"
                                  "lang" "path"
                                  (with_file "path" [x00; xff; x10]
                                     (Return (json_response 200 (PDict [])))))
                           [x00; xff; x10] eq_refl))).
  - exact (proj1 (proj2 (import_project_payload sample_client "proj" "lang" "path"
                           (answering (Return (json_response 200 (PDict []))))))
             (LibraryError "FileNotFoundError" "No such file or directory") eq_refl).
Defined.
